(** * main.py: greeting routes, database diagnostics and the IPB/UI slide deck

    A shallow embedding of [main.py].  The handlers and slide builders are
    translated statement by statement.  Python objects that the source
    mutates in place (the [response] dict, the [Presentation] and the
    slides, text frames and paragraphs reached through it, the [BytesIO]
    buffer) live in an explicit state that survives a raised exception,
    and a handle to a slide, shape or paragraph is its position in that
    state, so that a write through the handle is seen by the document.

    The third-party libraries (python-pptx, FastAPI/Starlette, the optional
    [database] module) are not part of the program; the few operations the
    source calls are modelled next to their first use, each with a comment
    saying what is assumed of the library.  A Python [str] is held as its
    UTF-8 bytes; the text setters of python-pptx are modelled with their
    line breaks, their escapes and their rejection of text XML cannot hold. *)

From Stdlib Require Import QArith.
From Stdlib Require Import Ascii.
From stdpp Require Import base option list strings gmap pretty.

Open Scope Z_scope.

(** ** Exceptions and the state-and-exception monad *)

(** Instances of Python's [Exception] class, by the classes the handlers
    tell apart.  [ModuleNotFoundError] is a subclass of [ImportError]. *)
Inductive exn_class :=
  | ImportError | ModuleNotFoundError
  | IndexError | KeyError | AttributeError | ValueError
  | OtherException (name : string).

(** An exception: its class and what [str(e)] gives. *)
Record exn := mk_exn { exn_cls : exn_class; exn_msg : string }.

(** [isinstance(e, ImportError)], what [except ImportError] tests. *)
Definition is_ImportError (e : exn) : bool :=
  match exn_cls e with
  | ImportError | ModuleNotFoundError => true
  | _ => false
  end.

(** [str(e)] *)
Definition str (e : exn) : string := exn_msg e.

(** A Python [str] is held as its UTF-8 bytes.  A character is a lead
    byte and the continuation bytes (10xxxxxx) after it. *)
Definition code (a : ascii) : Z := Z.of_N (N_of_ascii a).

Definition is_continuation (a : ascii) : bool :=
  (128 <=? code a) && (code a <? 192).

(** [len(s)]: the number of characters. *)
Fixpoint str_len (s : string) : nat :=
  match s with
  | EmptyString => 0%nat
  | String a s' => if is_continuation a then str_len s' else S (str_len s')
  end.

(** [s[:n]] on a [str]: its first [n] characters. *)
Fixpoint str_prefix (n : nat) (s : string) : string :=
  match s with
  | EmptyString => EmptyString
  | String a s' =>
      if is_continuation a then String a (str_prefix n s')
      else match n with
           | O => EmptyString
           | S n' => String a (str_prefix n' s')
           end
  end.

Inductive outcome (A : Type) :=
  | Return (a : A)
  | Raise (e : exn).
Arguments Return {A} a.
Arguments Raise {A} e.

(** A statement run on the mutable state [S]: it returns or raises, and
    either way leaves a state behind. *)
Definition M (S A : Type) : Type := S → outcome A * S.

Global Instance M_ret {S} : MRet (M S) := λ A a s, (Return a, s).
Global Instance M_bind {S} : MBind (M S) := λ A B k m s,
  match m s with
  | (Return a, s') => k a s'
  | (Raise e, s') => (Raise e, s')
  end.

Definition raise {S A} (e : exn) : M S A := λ s, (Raise e, s).
Definition get {S} : M S S := λ s, (Return s, s).
Definition modify {S} (f : S → S) : M S unit := λ s, (Return tt, f s).

(** [try: body except Exception as e: handler(e)] *)
Definition try_except {S A} (body : M S A) (handler : exn → M S A) : M S A :=
  λ s, match body s with
       | (Return a, s') => (Return a, s')
       | (Raise e, s') => handler e s'
       end.

(** [for x in l: body(x)] *)
Fixpoint for_each {S A} (l : list A) (body : A → M S unit) : M S unit :=
  match l with
  | [] => mret tt
  | x :: l' => body x;; for_each l' body
  end.

(** [enumerate(l)] *)
Definition enumerate {A} (l : list A) : list (nat * A) :=
  zip (seq 0 (length l)) l.

(** ** The presentation document (python-pptx) *)

(** English Metric Units, the library's length unit. *)
Definition Emu := Z.

(** [Pt(n)]: [n] points. *)
Definition Pt (n : Z) : Emu := n * 12700.

(** [Inches(x)]: [int(x * 914400)].  The source passes decimal literals,
    read here as the fractions they denote. *)
Definition Inches (x : Q) : Emu := (Qnum x * 914400) ÷ Zpos (Qden x).

Inductive PP_ALIGN := PP_ALIGN_LEFT | PP_ALIGN_CENTER | PP_ALIGN_RIGHT | PP_ALIGN_JUSTIFY.

Record Font := mk_Font { bold : option bool; size : option Emu }.

Definition unset_font : Font := mk_Font None None.

(** What a paragraph holds, in order: runs of text, and the line breaks
    that [p.text = ...] puts where the string has a line feed or a
    vertical tab. *)
Inductive Run :=
  | mk_Run (text : string) (f : Font)
  | line_break.

Definition vertical_tab : string := String (ascii_of_nat 11) EmptyString.

(** [run.text]; a line break reads as a vertical tab. *)
Definition run_text (r : Run) : string :=
  match r with
  | mk_Run text _ => text
  | line_break => vertical_tab
  end.

(** [run.font] *)
Definition run_font (r : Run) : Font :=
  match r with
  | mk_Run _ f => f
  | line_break => unset_font
  end.

Record Paragraph := mk_Paragraph {
  runs : list Run;
  level : nat;
  alignment : option PP_ALIGN;
  font : Font
}.

Record TextFrame := mk_TextFrame {
  paragraphs : list Paragraph;
  word_wrap : option bool
}.

Record Placeholder := mk_Placeholder { ph_idx : nat; ph_text_frame : TextFrame }.

Record TextBox := mk_TextBox {
  box_left : Emu; box_top : Emu; box_width : Emu; box_height : Emu;
  box_text_frame : TextFrame
}.

Record SlideLayout := mk_SlideLayout {
  layout_name : string;
  layout_placeholders : list nat
}.

Record Slide := mk_Slide {
  slide_layout : SlideLayout;
  placeholders : list Placeholder;
  textboxes : list TextBox
}.

Record Presentation := mk_Presentation {
  slide_width : Emu;
  slide_height : Emu;
  slide_layouts : list SlideLayout;
  slides : list Slide
}.

Definition empty_run : Run := mk_Run "" unset_font.
Definition empty_paragraph : Paragraph := mk_Paragraph [] 0 None unset_font.
(** A new placeholder holds one empty paragraph and inherits its wrapping. *)
Definition new_text_frame : TextFrame := mk_TextFrame [empty_paragraph] None.
(** A new text box holds one empty paragraph and does not wrap. *)
Definition new_textbox_frame : TextFrame := mk_TextFrame [empty_paragraph] (Some false).

(** [p.text] read back: the texts of the runs and breaks, concatenated. *)
Definition paragraph_text (p : Paragraph) : string :=
  foldr (λ r acc, run_text r +:+ acc) "" (runs p).

(** The layouts of the library's built-in template, in order, each with
    the [idx] of the placeholders a new slide inherits from it.  The source
    uses [0], [1] ("Title and Content") and [5] ("Title Only"). *)
Definition default_slide_layouts : list SlideLayout :=
  [ mk_SlideLayout "Title Slide" [0; 1];
    mk_SlideLayout "Title and Content" [0; 1];
    mk_SlideLayout "Section Header" [0; 1];
    mk_SlideLayout "Two Content" [0; 1; 2];
    mk_SlideLayout "Comparison" [0; 1; 2; 3; 4];
    mk_SlideLayout "Title Only" [0];
    mk_SlideLayout "Blank" [];
    mk_SlideLayout "Content with Caption" [0; 1; 2];
    mk_SlideLayout "Picture with Caption" [0; 1; 2];
    mk_SlideLayout "Title and Vertical Text" [0; 1];
    mk_SlideLayout "Vertical Title and Text" [0; 1] ]%nat.

(** [Presentation()]: the built-in 4:3 template, 10 in by 7.5 in, no slides. *)
Definition Presentation_new : Presentation :=
  mk_Presentation 9144000 6858000 default_slide_layouts [].

(** Handles.  A slide is its index in [prs.slides]; a shape is a slide and
    a position among that slide's placeholders or text boxes; a text frame
    is its shape; a paragraph is a text frame and an index; a run likewise. *)
Inductive shape_key := PH (k : nat) | TB (k : nat).
Definition slide_ref := nat.
Definition shape_ref : Type := slide_ref * shape_key.
Definition paragraph_ref : Type := shape_ref * nat.
Definition run_ref : Type := paragraph_ref * nat.

(** *** Reading and writing through handles *)

Definition slide_text_frame (key : shape_key) (sl : Slide) : option TextFrame :=
  match key with
  | PH k => ph_text_frame <$> placeholders sl !! k
  | TB k => box_text_frame <$> textboxes sl !! k
  end.

Definition slide_set_text_frame (key : shape_key) (tf : TextFrame) (sl : Slide) : Slide :=
  match key with
  | PH k =>
      mk_Slide (slide_layout sl)
        (alter (λ ph, mk_Placeholder (ph_idx ph) tf) k (placeholders sl))
        (textboxes sl)
  | TB k =>
      mk_Slide (slide_layout sl) (placeholders sl)
        (alter (λ b, mk_TextBox (box_left b) (box_top b) (box_width b) (box_height b) tf)
               k (textboxes sl))
  end.

Definition get_text_frame (r : shape_ref) (prs : Presentation) : option TextFrame :=
  slides prs !! r.1 ≫= slide_text_frame r.2.

Definition set_text_frame (r : shape_ref) (tf : TextFrame) (prs : Presentation) : Presentation :=
  mk_Presentation (slide_width prs) (slide_height prs) (slide_layouts prs)
    (alter (slide_set_text_frame r.2 tf) r.1 (slides prs)).

(** A write to the text frame behind [r]. *)
Definition update_text_frame (r : shape_ref) (f : TextFrame → TextFrame) : M Presentation unit :=
  λ prs, match get_text_frame r prs with
         | Some tf => (Return tt, set_text_frame r (f tf) prs)
         | None => (Return tt, prs)
         end.

Definition with_paragraphs (f : list Paragraph → list Paragraph) (tf : TextFrame) : TextFrame :=
  mk_TextFrame (f (paragraphs tf)) (word_wrap tf).

(** A write to the paragraph behind [p]. *)
Definition update_paragraph (p : paragraph_ref) (f : Paragraph → Paragraph) : M Presentation unit :=
  update_text_frame p.1 (with_paragraphs (alter f p.2)).

Definition with_runs (f : list Run → list Run) (p : Paragraph) : Paragraph :=
  mk_Paragraph (f (runs p)) (level p) (alignment p) (font p).

Definition update_run (r : run_ref) (f : Run → Run) : M Presentation unit :=
  update_paragraph r.1 (with_runs (alter f r.2)).

(** *** The library calls of the source *)

(** [prs.slide_layouts[i]] *)
Definition slide_layouts_getitem (i : nat) : M Presentation SlideLayout :=
  prs ← get;
  match slide_layouts prs !! i with
  | Some l => mret l
  | None => raise (mk_exn IndexError "slide layout index out of range")
  end.

(** [prs.slides.add_slide(layout)]: the new slide goes last and carries one
    empty placeholder for every placeholder of its layout. *)
Definition new_slide (layout : SlideLayout) : Slide :=
  mk_Slide layout
    ((λ i, mk_Placeholder i new_text_frame) <$> layout_placeholders layout) [].

Definition add_slide (layout : SlideLayout) : M Presentation slide_ref :=
  prs ← get;
  modify (λ prs, mk_Presentation (slide_width prs) (slide_height prs)
                   (slide_layouts prs) (slides prs ++ [new_slide layout]));;
  mret (length (slides prs)).

(** [slide.placeholders[idx]] and [slide.shapes.placeholders[idx]]: lookup
    by the placeholder's [idx], [KeyError] when the slide has none. *)
Definition placeholders_getitem (sl : slide_ref) (idx : nat) : M Presentation shape_ref :=
  prs ← get;
  match slides prs !! sl ≫= λ s, list_find (λ ph, ph_idx ph = idx) (placeholders s) with
  | Some (k, _) => mret (sl, PH k)
  | None =>
      raise (mk_exn KeyError
        ("'no placeholder on this slide with idx == " +:+ pretty idx +:+ "'"))
  end.

(** [slide.shapes.title]: the placeholder of [idx] 0.  On a slide without
    one the library yields [None], and the attribute access that follows
    in the source raises [AttributeError]. *)
Definition shapes_title (sl : slide_ref) : M Presentation shape_ref :=
  prs ← get;
  match slides prs !! sl ≫= λ s, list_find (λ ph, ph_idx ph = 0%nat) (placeholders s) with
  | Some (k, _) => mret (sl, PH k)
  | None => raise (mk_exn AttributeError "'NoneType' object has no attribute 'text'")
  end.

(** [shape.text_frame] *)
Definition text_frame (r : shape_ref) : M Presentation shape_ref := mret r.

(** [tf.clear()]: all paragraphs but the first are removed and the first
    is emptied of its runs. *)
Definition tf_clear (tf : shape_ref) : M Presentation unit :=
  update_text_frame tf
    (with_paragraphs (λ ps, [with_runs (λ _, []) (default empty_paragraph (head ps))])).

(** [tf.paragraphs[i]] *)
Definition paragraphs_getitem (tf : shape_ref) (i : nat) : M Presentation paragraph_ref :=
  prs ← get;
  match get_text_frame tf prs ≫= λ f, paragraphs f !! i with
  | Some _ => mret (tf, i)
  | None => raise (mk_exn IndexError "tuple index out of range")
  end.

(** [tf.add_paragraph()]: a new empty paragraph, last in the frame. *)
Definition add_paragraph (tf : shape_ref) : M Presentation paragraph_ref :=
  prs ← get;
  update_text_frame tf (with_paragraphs (λ ps, ps ++ [empty_paragraph]));;
  mret (tf, from_option (λ f, length (paragraphs f)) 0%nat (get_text_frame tf prs)).

(** [tf.word_wrap = b] *)
Definition set_word_wrap (tf : shape_ref) (b : bool) : M Presentation unit :=
  update_text_frame tf (λ f, mk_TextFrame (paragraphs f) (Some b)).

(** [p.level = n] *)
Definition set_level (p : paragraph_ref) (n : nat) : M Presentation unit :=
  update_paragraph p (λ q, mk_Paragraph (runs q) n (alignment q) (font q)).

(** [p.alignment = a] *)
Definition set_alignment (p : paragraph_ref) (a : PP_ALIGN) : M Presentation unit :=
  update_paragraph p (λ q, mk_Paragraph (runs q) (level q) (Some a) (font q)).

(** [p.font.size = v] *)
Definition set_paragraph_font_size (p : paragraph_ref) (v : Emu) : M Presentation unit :=
  update_paragraph p
    (λ q, mk_Paragraph (runs q) (level q) (alignment q) (mk_Font (bold (font q)) (Some v))).

(** [p.add_run()]: a new empty run, last in the paragraph. *)
Definition add_run (p : paragraph_ref) : M Presentation run_ref :=
  prs ← get;
  update_paragraph p (with_runs (λ rs, rs ++ [empty_run]));;
  mret (p, from_option (λ q, length (runs q)) 0%nat
             (get_text_frame p.1 prs ≫= λ f, paragraphs f !! p.2)).

(** *** Text, as the library stores it *)

Definition is_line_feed (a : ascii) : bool := code a =? 10.
Definition is_line_break (a : ascii) : bool := (code a =? 10) || (code a =? 11).

(** [s.split(sep)] and [re.split(sep, s)] for one-character separators:
    the pieces between the separators, empty pieces included. *)
Fixpoint split_on (sep : ascii → bool) (s : string) : list string :=
  match s with
  | EmptyString => [EmptyString]
  | String a s' =>
      if sep a then EmptyString :: split_on sep s'
      else match split_on sep s' with
           | piece :: pieces => String a piece :: pieces
           | [] => [String a EmptyString]
           end
  end.

Definition hex_digit (n : Z) : ascii :=
  match n with
  | 0 => "0" | 1 => "1" | 2 => "2" | 3 => "3" | 4 => "4" | 5 => "5"
  | 6 => "6" | 7 => "7" | 8 => "8" | 9 => "9" | 10 => "A" | 11 => "B"
  | 12 => "C" | 13 => "D" | 14 => "E" | _ => "F"
  end%char.

(** The control characters the library escapes: all below 32 but the
    tab and the line feed. *)
Definition is_escaped (a : ascii) : bool :=
  (code a <? 9) || ((10 <? code a) && (code a <? 32)).

(** The library's [_escape]: a control character becomes [_xHHHH_]. *)
Fixpoint _escape (s : string) : string :=
  match s with
  | EmptyString => EmptyString
  | String a s' =>
      if is_escaped a
      then "_x00" +:+ String (hex_digit (code a / 16))
                        (String (hex_digit (code a mod 16)) ("_" +:+ _escape s'))
      else String a (_escape s')
  end.

(** The three bytes at a position spell U+FFFE, U+FFFF or a surrogate. *)
Definition forbidden_utf8 (a : ascii) (rest : string) : bool :=
  match rest with
  | String b (String c _) =>
      if code a =? 239 then (code b =? 191) && ((code c =? 190) || (code c =? 191))
      else if code a =? 237 then
        ((code b =? 160) && (128 <=? code c))
        || ((160 <? code b) && (code b <? 191))
        || ((code b =? 191) && (code c <=? 191))
      else false
  | _ => false
  end.

(** The check the XML layer under the library makes on text it is given:
    no control character but tab, line feed and carriage return, and no
    U+FFFE, U+FFFF or surrogate. *)
Fixpoint xml_compatible (s : string) : bool :=
  match s with
  | EmptyString => true
  | String a s' =>
      ((32 <=? code a) || (code a =? 9) || (code a =? 10) || (code a =? 13))
      && negb (forbidden_utf8 a s')
      && xml_compatible s'
  end.

(** [run.text = s]: the text is stored escaped; text that XML cannot hold
    raises [ValueError]. *)
Definition set_run_text (r : run_ref) (s : string) : M Presentation unit :=
  if xml_compatible (_escape s)
  then update_run r (λ x, mk_Run (_escape s) (run_font x))
  else raise (mk_exn ValueError
    "All strings must be XML compatible: Unicode or ASCII, no NULL bytes or control characters").

(** [p.clear()]: the paragraph loses its runs and breaks, not its properties. *)
Definition clear_paragraph (p : paragraph_ref) : M Presentation unit :=
  update_paragraph p (with_runs (λ _, [])).

(** The library's [add_br]: a line break, last in the paragraph. *)
Definition add_br (p : paragraph_ref) : M Presentation unit :=
  update_paragraph p (with_runs (λ rs, rs ++ [line_break])).

(** The library's [add_r]: a new run, last in the paragraph, then its text. *)
Definition add_r (p : paragraph_ref) (text : string) : M Presentation unit :=
  r ← add_run p;
  if decide (text = "") then mret tt else set_run_text r text.

(** The library's [append_text]: the pieces between line feeds and
    vertical tabs become runs, with a line break between two pieces; an
    empty piece gets no run. *)
Definition append_text (p : paragraph_ref) (text : string) : M Presentation unit :=
  for_each (enumerate (split_on is_line_break text)) (λ '(idx, r_str),
    (if decide (idx = 0%nat) then mret tt else add_br p);;
    if decide (r_str = "") then mret tt else add_r p r_str).

(** [p.text = s] *)
Definition set_paragraph_text (p : paragraph_ref) (s : string) : M Presentation unit :=
  clear_paragraph p;;
  append_text p s.

(** [shape.text = s]: the frame's paragraphs are replaced by one new
    paragraph for each piece of [s] between line feeds. *)
Definition shape_set_text (r : shape_ref) (s : string) : M Presentation unit :=
  update_text_frame r (with_paragraphs (λ _, []));;
  for_each (split_on is_line_feed s) (λ p_str,
    p ← add_paragraph r;
    append_text p p_str).

(** [run.font.bold = b] *)
Definition set_run_bold (r : run_ref) (b : bool) : M Presentation unit :=
  update_run r (λ x, mk_Run (run_text x) (mk_Font (Some b) (size (run_font x)))).

(** [run.font.size = v] *)
Definition set_run_size (r : run_ref) (v : Emu) : M Presentation unit :=
  update_run r (λ x, mk_Run (run_text x) (mk_Font (bold (run_font x)) (Some v))).

(** [slide.shapes.add_textbox(left, top, width, height)] *)
Definition add_textbox (sl : slide_ref) (l t w h : Emu) : M Presentation shape_ref :=
  prs ← get;
  modify (λ prs, mk_Presentation (slide_width prs) (slide_height prs) (slide_layouts prs)
     (alter (λ s, mk_Slide (slide_layout s) (placeholders s)
                    (textboxes s ++ [mk_TextBox l t w h new_textbox_frame]))
            sl (slides prs)));;
  mret (sl, TB (from_option (λ s, length (textboxes s)) 0%nat (slides prs !! sl))).

(** ** The slide builders of main.py *)

Definition _add_title_slide (title subtitle : string) : M Presentation unit :=
  slide_layout ← slide_layouts_getitem 0;
  slide ← add_slide slide_layout;
  t ← shapes_title slide;
  shape_set_text t title;;
  ph ← placeholders_getitem slide 1;
  shape_set_text ph subtitle.

Definition _add_bullets_slide (title : string) (bullets : list string) : M Presentation unit :=
  slide_layout ← slide_layouts_getitem 1;
  slide ← add_slide slide_layout;
  t ← shapes_title slide;
  shape_set_text t title;;
  ph ← placeholders_getitem slide 1;
  tf ← text_frame ph;
  tf_clear tf;;
  for_each (enumerate bullets) (λ '(i, b),
    p ← (if decide (i = 0%nat) then paragraphs_getitem tf 0 else add_paragraph tf);
    set_paragraph_text p b;;
    set_level p 0).

Definition _add_two_column_slide (title left_title : string) (left_items : list string)
    (right_title : string) (right_items : list string) : M Presentation unit :=
  slide_layout ← slide_layouts_getitem 5;
  slide ← add_slide slide_layout;
  t ← shapes_title slide;
  shape_set_text t title;;
  left_box ← add_textbox slide (Inches (7 # 10)) (Inches (16 # 10)) (Inches (43 # 10)) (Inches 5);
  right_box ← add_textbox slide (Inches (52 # 10)) (Inches (16 # 10)) (Inches (43 # 10)) (Inches 5);
  for_each [(left_title, left_items, left_box); (right_title, right_items, right_box)]
    (λ '(title_text, items, box),
      tf ← text_frame box;
      set_word_wrap tf true;;
      p ← paragraphs_getitem tf 0;
      run ← add_run p;
      set_run_text run title_text;;
      set_run_bold run true;;
      set_run_size run (Pt 20);;
      set_alignment p PP_ALIGN_LEFT;;
      for_each items (λ it,
        pi ← add_paragraph tf;
        set_paragraph_text pi ("• " +:+ it);;
        set_level pi 0;;
        set_paragraph_font_size pi (Pt 16))).

(** ** The clock, the byte buffer and the package writer *)

(** [datetime.now()], as far as [strftime('%d %B %Y')] reads it. *)
Record datetime := mk_datetime { year : nat; month : nat; day : nat }.

(** Plain text: no control character (code below 32), and none of the
    characters U+D000 to U+DFFF and U+F000 to U+FFFF, whose UTF-8 form
    starts with the byte 237 or 239.  The library stores such text as it
    is given. *)
Definition plain_char (a : ascii) : bool :=
  (32 <=? code a) && negb (code a =? 237) && negb (code a =? 239).

Fixpoint plain_text (s : string) : bool :=
  match s with
  | EmptyString => true
  | String a s' => plain_char a && plain_text s'
  end.

(** The wall clock, and the month names of the [LC_TIME] locale that [%B]
    prints; a locale's month names are plain text. *)
Record Clock := mk_Clock {
  now : datetime;
  month_name : nat → string;
  month_name_plain : ∀ m, plain_text (month_name m) = true
}.

(** [%d]: the day of the month on two digits. *)
Definition strftime_d (d : datetime) : string :=
  if decide (day d < 10)%nat then "0" +:+ pretty (day d) else pretty (day d).

(** [dt.strftime('%d %B %Y')] *)
Definition strftime_d_B_Y (c : Clock) (d : datetime) : string :=
  strftime_d d +:+ " " +:+ month_name c (month d) +:+ " " +:+ pretty (year d).

(** [io.BytesIO]: the bytes written so far and the stream position. *)
Record BytesIO := mk_BytesIO { getvalue : list Byte.byte; tell : nat }.

(** [BytesIO()] *)
Definition BytesIO_new : BytesIO := mk_BytesIO [] 0.

(** [bio.write(data)]: overwrites from the position on, extends the buffer
    where needed and leaves the position after the data. *)
Definition BytesIO_write (data : list Byte.byte) (bio : BytesIO) : BytesIO :=
  mk_BytesIO
    (take (tell bio) (getvalue bio)
       ++ replicate (tell bio - length (getvalue bio)) Byte.x00
       ++ data ++ drop (tell bio + length data) (getvalue bio))
    (tell bio + length data).

(** [bio.seek(n)] *)
Definition BytesIO_seek (n : nat) (bio : BytesIO) : BytesIO :=
  mk_BytesIO (getvalue bio) n.

(** The serializer behind [prs.save]: python-pptx writes the document as
    a ZIP package.  Its bytes are the library's business; the development
    is parametric in them. *)
Class PackageWriter := save_bytes : Presentation → list Byte.byte.

(** The first four bytes of a ZIP local file header, [PK\003\004]. *)
Definition zip_signature : list Byte.byte := [Byte.x50; Byte.x4b; Byte.x03; Byte.x04].

(** [prs.save(bio)] *)
Definition save `{PackageWriter} (prs : Presentation) (bio : BytesIO) : BytesIO :=
  BytesIO_write (save_bytes prs) bio.

(** ** The presentation assembler *)

Definition ipb_fakultas : list string :=
  [ "Fakultas Pertanian";
    "Fakultas Perikanan dan Ilmu Kelautan (FPIK)";
    "Fakultas Peternakan (FAPET)";
    "Fakultas Kehutanan dan Lingkungan (FKL)";
    "Fakultas Teknologi Pertanian (FATETA)";
    "Fakultas Matematika dan Ilmu Pengetahuan Alam (FMIPA)";
    "Fakultas Ekonomi dan Manajemen (FEM)";
    "Fakultas Ekologi Manusia (FEMA)";
    "Sekolah Kedokteran Hewan dan Biomedis (SKHB)";
    "Sekolah Bisnis (SB)";
    "Sekolah Vokasi (SV)" ].

Definition kesehatan : list string :=
  [ "Fakultas Kedokteran (FK)";
    "Fakultas Kedokteran Gigi (FKG)";
    "Fakultas Ilmu Keperawatan (FIK)";
    "Fakultas Kesehatan Masyarakat (FKM)";
    "Fakultas Farmasi (FF)" ].

Definition saintek : list string :=
  [ "Fakultas Teknik (FT)";
    "Fakultas Matematika dan Ilmu Pengetahuan Alam (FMIPA)";
    "Fakultas Ilmu Komputer (Fasilkom)" ].

Definition soshum : list string :=
  [ "Fakultas Hukum (FH)";
    "Fakultas Ekonomi dan Bisnis (FEB)";
    "Fakultas Ilmu Pengetahuan Budaya (FIB)";
    "Fakultas Psikologi (FPsi)";
    "Fakultas Ilmu Sosial dan Ilmu Politik (FISIP)";
    "Fakultas Ilmu Administrasi (FIA)" ].

Definition lainnya : list string :=
  [ "Program Pendidikan Vokasi";
    "Sekolah Ilmu Lingkungan (SIL)";
    "Sekolah Kajian Stratejik dan Global (SKSG)" ].

(** The statements of [build_ipb_ui_presentation] that fill [prs], from the
    title slide to the second two-column slide. *)
Definition build_content_slides : M Presentation unit :=
  _add_title_slide
    "Profil IPB University & Universitas Indonesia"
    "Ringkasan jalur masuk dan fakultas (disusun otomatis)";;
  _add_bullets_slide
    "IPB University – Ringkasan"
    [ "Perguruan tinggi negeri unggul berlokasi di Bogor, Jawa Barat";
      "Bertransformasi menjadi Techno-Socio Entrepreneurial University";
      "Keunggulan: biosains tropika, pertanian, kelautan, dan teknologi terkait";
      "Sering masuk Top 50 dunia untuk Pertanian & Kehutanan (QS WUR)";
      "Akreditasi: Unggul; Program: Vokasi hingga Pascasarjana";
      "Kampus utama di Dramaga; inovasi untuk kemandirian pangan & keberlanjutan" ];;
  _add_bullets_slide
    "IPB – Jalur Masuk"
    [ "SNBP";
      "SNBT";
      "AFIRMASI DIKTI";
      "MANDIRI (Ketua OSIS, Talenta, SM-IPB, BUD, Kelas Internasional)" ];;
  _add_bullets_slide "IPB – Fakultas & Sekolah" ipb_fakultas;;
  _add_bullets_slide
    "Universitas Indonesia – Ringkasan"
    [ "PTN-BH tertua dan prestisius di Indonesia";
      "Kampus utama Green Campus di Depok; Kampus Salemba di Jakarta";
      "Kampus komprehensif dan multikultural, program Vokasi hingga Doktor";
      "14 Fakultas mencakup Kesehatan, Saintek, dan Soshum";
      "Peringkat teratas nasional dengan pengakuan global";
      "Fokus: riset, inovasi, pengabdian masyarakat; lulusan berdaya saing tinggi" ];;
  _add_bullets_slide
    "UI – Jalur Masuk"
    [ "SNBP";
      "SNBT";
      "SIMAK UI";
      "Talent Scouting";
      "PPKB";
      "Seleksi Jalur Prestasi" ];;
  _add_two_column_slide "UI – Fakultas (Kesehatan & Saintek)"
    "Rumpun Kesehatan" kesehatan "Rumpun Saintek" saintek;;
  _add_two_column_slide "UI – Fakultas (Soshum & Program Lain)"
    "Rumpun Soshum" soshum "Program/Sekolah Lain" lainnya.

(** The closing slide, inlined in [build_ipb_ui_presentation]. *)
Definition build_closing_slide (c : Clock) : M Presentation unit :=
  slide_layout ← slide_layouts_getitem 5;
  slide ← add_slide slide_layout;
  t ← shapes_title slide;
  shape_set_text t "Terima kasih";;
  box ← add_textbox slide (Inches (12 # 10)) (Inches (22 # 10)) (Inches 8) (Inches 3);
  tf ← text_frame box;
  p ← paragraphs_getitem tf 0;
  set_paragraph_text p ("Disusun otomatis pada " +:+ strftime_d_B_Y c (now c));;
  set_paragraph_font_size p (Pt 18).

(** All the statements of [build_ipb_ui_presentation] that fill [prs]. *)
Definition build_slides (c : Clock) : M Presentation unit :=
  build_content_slides;;
  build_closing_slide c.

(** The statements of [build_ipb_ui_presentation] after [prs = Presentation()],
    run on [prs]: the slides, then the serialization into the buffer. *)
Definition build_steps `{PackageWriter} (c : Clock) : M Presentation BytesIO :=
  build_slides c;;
  prs ← get;
  let bio := BytesIO_new in
  let bio := save prs bio in
  let bio := BytesIO_seek 0 bio in
  mret bio.

(** [build_ipb_ui_presentation()]: what the call returns or raises. *)
Definition build_ipb_ui_presentation `{PackageWriter} (c : Clock) : outcome BytesIO :=
  (build_steps c Presentation_new).1.

(** The document [prs] that the call fills and then serializes. *)
Definition built_document (c : Clock) : Presentation :=
  (build_slides c Presentation_new).2.

(** ** The diagnostics handler *)

(** The values the handlers put in their JSON objects. *)
Inductive pyval :=
  | VNone
  | VStr (s : string)
  | VList (l : list string).

(** The [db] handle of the optional [database] module: its [name]
    attribute, if it has one, and what [db.list_collection_names()] does. *)
Record Database := mk_Database {
  db_name : option string;
  list_collection_names : outcome (list string)
}.

(** What [from database import db] does: it raises ([ImportError] when the
    module is missing, anything else when the module fails to load), or it
    binds [db], to [None] or to a handle. *)
Inductive import_result :=
  | ImportRaises (e : exn)
  | Imported (db : option Database).

(** What the process finds around it: [os.environ], the outcome of
    [from database import db], and the clock. *)
Record World := mk_World {
  environ : gmap string string;
  database_module : import_result;
  clock : Clock
}.

(** [os.getenv(k)] *)
Definition os_getenv (w : World) (k : string) : option string := environ w !! k.

(** Truth value of an optional [str]: [None] and [""] are false. *)
Definition truthy (v : option string) : bool :=
  match v with
  | Some s => bool_decide (s ≠ "")
  | None => false
  end.

(** A call whose result is known: it returns or raises, the state untouched. *)
Definition call {S A} (o : outcome A) : M S A := λ s, (o, s).

(** [from database import db] *)
Definition import_db {S} (w : World) : M S (option Database) :=
  match database_module w with
  | ImportRaises e => raise e
  | Imported db => mret db
  end.

(** [response[k] = v] *)
Definition setitem (k : string) (v : pyval) : M (gmap string pyval) unit :=
  modify <[k := v]>.

(** The dict literal that [test_database] starts from. *)
Definition initial_response : gmap string pyval :=
  <["collections" := VList []]>
  (<["connection_status" := VStr "Not Connected"]>
  (<["database_name" := VNone]>
  (<["database_url" := VNone]>
  (<["database" := VStr "❌ Not Available"]>
  (<["backend" := VStr "✅ Running"]> ∅))))).

(** The statements of [test_database] after the dict literal, run on
    [response]. *)
Definition test_database_steps (w : World) : M (gmap string pyval) unit :=
  try_except
    (db ← import_db w;
     match db with
     | Some db =>
         setitem "database" (VStr "✅ Available");;
         setitem "database_url" (VStr "✅ Configured");;
         setitem "database_name" (VStr (default "✅ Connected" (db_name db)));;
         setitem "connection_status" (VStr "Connected");;
         try_except
           (collections ← call (list_collection_names db);
            setitem "collections" (VList (take 10 collections));;
            setitem "database" (VStr "✅ Connected & Working"))
           (λ e, setitem "database"
                   (VStr ("⚠️  Connected but Error: " +:+ str_prefix 50 (str e))))
     | None =>
         setitem "database" (VStr "⚠️  Available but not initialized")
     end)
    (λ e,
       if is_ImportError e
       then setitem "database"
              (VStr "❌ Database module not found (run enable-database first)")
       else setitem "database" (VStr ("❌ Error: " +:+ str_prefix 50 (str e))));;
  setitem "database_url"
    (VStr (if truthy (os_getenv w "DATABASE_URL") then "✅ Set" else "❌ Not Set"));;
  setitem "database_name"
    (VStr (if truthy (os_getenv w "DATABASE_NAME") then "✅ Set" else "❌ Not Set")).

(** [test_database()]: the dict it returns, or the exception that leaves it. *)
Definition test_database (w : World) : outcome (gmap string pyval) :=
  match test_database_steps w initial_response with
  | (Return _, response) => Return response
  | (Raise e, _) => Raise e
  end.

(** ** The HTTP layer *)

Inductive Body :=
  | JsonBody (content : gmap string pyval)
  | StreamBody (stream : BytesIO)
  | TextBody (s : string).

Record Response := mk_Response {
  status_code : nat;
  headers : list (string * string);
  media_type : string;
  body : Body
}.

(** [JSONResponse(status_code=n, content=d)] *)
Definition JSONResponse (n : nat) (content : gmap string pyval) : Response :=
  mk_Response n [] "application/json" (JsonBody content).

(** [StreamingResponse(stream, media_type=m, headers=h)] *)
Definition StreamingResponse (stream : BytesIO) (m : string)
    (h : list (string * string)) : Response :=
  mk_Response 200 h m (StreamBody stream).

(** The bytes a client receives: a streamed buffer is read from its
    position to its end. *)
Definition sent_bytes (r : Response) : option (list Byte.byte) :=
  match body r with
  | StreamBody stream => Some (drop (tell stream) (getvalue stream))
  | _ => None
  end.

Definition read_root : outcome (gmap string pyval) :=
  Return {["message" := VStr "Hello from FastAPI Backend!"]}.

Definition hello : outcome (gmap string pyval) :=
  Return {["message" := VStr "Hello from the backend API!"]}.

(** [generate_ppt_ipb_ui], given what its call of the assembler does. *)
Definition generate_ppt_ipb_ui_calling (build : outcome BytesIO) : outcome Response :=
  (try_except
     (stream ← call build;
      let filename := "Profil_IPB_dan_UI.pptx" in
      let headers := [("Content-Disposition", "attachment; filename=" +:+ filename)] in
      mret (StreamingResponse stream
              "application/vnd.openxmlformats-officedocument.presentationml.presentation"
              headers))
     (λ e, mret (JSONResponse 500 {["error" := VStr (str e)]}))
     tt).1.

Definition generate_ppt_ipb_ui `{PackageWriter} (w : World) : outcome Response :=
  generate_ppt_ipb_ui_calling (build_ipb_ui_presentation (clock w)).

(** *** The framework: routing and the CORS middleware *)

Record Request := mk_Request {
  method : string;
  path : string;
  query : list (string * string);
  request_headers : list (string * string)
}.

(** What FastAPI sends for a handler that returns a dict (200, the dict as
    JSON) and for one that lets an exception escape (500). *)
Definition respond_dict (o : outcome (gmap string pyval)) : Response :=
  match o with
  | Return d => JSONResponse 200 d
  | Raise _ => mk_Response 500 [] "text/plain" (TextBody "Internal Server Error")
  end.

(** The same for a handler that returns a response object. *)
Definition respond (o : outcome Response) : Response :=
  match o with
  | Return r => r
  | Raise _ => mk_Response 500 [] "text/plain" (TextBody "Internal Server Error")
  end.

(** The four [@app.get] routes.  No handler takes a parameter, so neither
    the query string nor the headers reach one. *)
Definition router `{PackageWriter} (w : World) (req : Request) : Response :=
  if decide (path req = "/") then
    if decide (method req = "GET") then respond_dict read_root
    else mk_Response 405 [] "application/json" (JsonBody {["detail" := VStr "Method Not Allowed"]})
  else if decide (path req = "/api/hello") then
    if decide (method req = "GET") then respond_dict hello
    else mk_Response 405 [] "application/json" (JsonBody {["detail" := VStr "Method Not Allowed"]})
  else if decide (path req = "/test") then
    if decide (method req = "GET") then respond_dict (test_database w)
    else mk_Response 405 [] "application/json" (JsonBody {["detail" := VStr "Method Not Allowed"]})
  else if decide (path req = "/api/ppt/ipb-ui") then
    if decide (method req = "GET") then respond (generate_ppt_ipb_ui w)
    else mk_Response 405 [] "application/json" (JsonBody {["detail" := VStr "Method Not Allowed"]})
  else mk_Response 404 [] "application/json" (JsonBody {["detail" := VStr "Not Found"]}).

(** A request header, by its lower-case name. *)
Definition header (name : string) (req : Request) : option string :=
  (λ found, found.2.2) <$> list_find (λ kv, kv.1 = name) (request_headers req).

(** [CORSMiddleware] with every origin, method and header allowed: a
    preflight request is answered by the middleware; any other request
    goes to the routes, and with an [origin] header present the response
    gets the allow headers added.  The body is passed through. *)
Definition CORSMiddleware (inner : Request → Response) (req : Request) : Response :=
  match header "origin" req with
  | None => inner req
  | Some origin =>
      if decide (method req = "OPTIONS" ∧ is_Some (header "access-control-request-method" req))
      then mk_Response 200
             [("access-control-allow-origin", origin);
              ("access-control-allow-credentials", "true")]
             "text/plain" (TextBody "OK")
      else
        let r := inner req in
        mk_Response (status_code r)
          (headers r ++ [("access-control-allow-origin",
                          if decide (is_Some (header "cookie" req)) then origin else "*");
                         ("access-control-allow-credentials", "true")])
          (media_type r) (body r)
  end.

(** [app]: the routes behind the middleware. *)
Definition app `{PackageWriter} (w : World) (req : Request) : Response :=
  CORSMiddleware (router w) req.

(** ** Concrete surroundings, used to run the model *)

(** Month names of the C locale, the one a Python process starts with. *)
Definition c_locale_month_name (m : nat) : string :=
  match m with
  | 1 => "January" | 2 => "February" | 3 => "March" | 4 => "April"
  | 5 => "May" | 6 => "June" | 7 => "July" | 8 => "August"
  | 9 => "September" | 10 => "October" | 11 => "November" | 12 => "December"
  | _ => ""
  end%nat.

Definition c_locale_month_name_plain (m : nat) :
    plain_text (c_locale_month_name m) = true :=
  match m with
  | 1 | 2 | 3 | 4 | 5 | 6 | 7 | 8 | 9 | 10 | 11 | 12 => eq_refl
  | _ => eq_refl
  end%nat.

Definition clock_2026_11_04 : Clock :=
  mk_Clock (mk_datetime 2026 11 4) c_locale_month_name c_locale_month_name_plain.

(** A writer whose package is the bare signature. *)
Definition signature_only_writer : PackageWriter := λ _, zip_signature.

(** ** Reading a finished document *)

Definition newline : string := String (Ascii.ascii_of_nat 10) EmptyString.

(** [shape.text] read back: the paragraphs' texts, one per line. *)
Definition text_frame_text (tf : TextFrame) : string :=
  String.concat newline (paragraph_text <$> paragraphs tf).

(** The text of the slide's title placeholder. *)
Definition slide_title (s : Slide) : string :=
  from_option (λ found, text_frame_text (ph_text_frame found.2)) ""
    (list_find (λ ph, ph_idx ph = 0%nat) (placeholders s)).

(** The content placeholder of a slide, [slide.placeholders[1]]. *)
Definition content_placeholder (s : Slide) : option TextFrame :=
  (λ found, ph_text_frame found.2) <$> list_find (λ ph, ph_idx ph = 1%nat) (placeholders s).

(** Layout name, title and number of text boxes of a slide. *)
Definition slide_summary (s : Slide) : string * string * nat :=
  (layout_name (slide_layout s), slide_title s, length (textboxes s)).

(** A text box sits in the middle of the slide, left to right. *)
Definition horizontally_centered (prs : Presentation) (b : TextBox) : Prop :=
  2 * box_left b + box_width b = slide_width prs.

(** The closing slide as the specification words it: title-only layout,
    one text box, centered (by its place on the slide or by the alignment
    of its text), showing the formatted generation date. *)
Definition closing_slide_as_specified (c : Clock) (prs : Presentation) : Prop :=
  ∃ s b p,
    last (slides prs) = Some s ∧
    layout_name (slide_layout s) = "Title Only" ∧
    textboxes s = [b] ∧
    paragraphs (box_text_frame b) = [p] ∧
    (horizontally_centered prs b ∨ alignment p = Some PP_ALIGN_CENTER) ∧
    ∃ lead, paragraph_text p = lead +:+ strftime_d_B_Y c (now c).

(** The document [prs] with its slides replaced: builders change nothing
    else of it. *)
Definition with_slides (prs : Presentation) (ss : list Slide) : Presentation :=
  mk_Presentation (slide_width prs) (slide_height prs) (slide_layouts prs) ss.

(** The runs that plain text is stored as: one run, none for the empty
    string. *)
Definition plain_runs (s : string) : list Run :=
  match s with
  | EmptyString => []
  | _ => [mk_Run s unset_font]
  end.

(** The paragraph a bullet ends up as: its text in one plain run, level 0. *)
Definition bullet_paragraph (b : string) : Paragraph :=
  mk_Paragraph (plain_runs b) 0 None unset_font.

(** The document before the closing slide is added. *)
Definition content_deck : Presentation :=
  (build_content_slides Presentation_new).2.

(** The heading paragraph of a column: one bold 20-point run, left-aligned. *)
Definition heading_paragraph (t : string) : Paragraph :=
  mk_Paragraph [mk_Run t (mk_Font (Some true) (Some (Pt 20)))] 0
    (Some PP_ALIGN_LEFT) unset_font.

(** The paragraph of a column item: the item after a bullet sign, at 16
    points, level 0. *)
Definition item_paragraph (it : string) : Paragraph :=
  mk_Paragraph [mk_Run ("• " +:+ it) unset_font] 0 None (mk_Font None (Some (Pt 16))).

(** The status string that each behaviour of the database module ends in. *)
Definition database_status (w : World) : string :=
  match database_module w with
  | ImportRaises e =>
      if is_ImportError e
      then "❌ Database module not found (run enable-database first)"
      else "❌ Error: " +:+ str_prefix 50 (str e)
  | Imported None => "⚠️  Available but not initialized"
  | Imported (Some db) =>
      match list_collection_names db with
      | Raise e => "⚠️  Connected but Error: " +:+ str_prefix 50 (str e)
      | Return _ => "✅ Connected & Working"
      end
  end.

(** [Set] or [Not Set], by the truth value of the environment variable. *)
Definition set_or_not (w : World) (k : string) : string :=
  if truthy (os_getenv w k) then "✅ Set" else "❌ Not Set".

(** The frame that [shape.text = t] leaves in a placeholder, for plain [t]. *)
Definition plain_text_frame (t : string) : TextFrame :=
  mk_TextFrame [bullet_paragraph t] None.

(** The text of the first run in the first text box of the last slide. *)
Definition closing_run_text (prs : Presentation) : option string :=
  s ← last (slides prs);
  b ← head (textboxes s);
  p ← head (paragraphs (box_text_frame b));
  r ← head (runs p);
  Some (run_text r).

(** A template with no layout at all, and one whose only layout has a
    title placeholder and nothing else. *)
Definition empty_template : Presentation :=
  mk_Presentation 9144000 6858000 [] [].

Definition title_only_template : Presentation :=
  mk_Presentation 9144000 6858000 [mk_SlideLayout "Title Only" [0%nat]] [].

(** A database whose listing fails with a message of 60 characters. *)
Definition listing_error : exn :=
  mk_exn (OtherException "ServerSelectionTimeoutError")
    "localhost:27017: connection refused, timeout after 30000 ms.".

Definition world_listing_fails : World :=
  mk_World ∅ (Imported (Some (mk_Database (Some "appdb") (Raise listing_error))))
    clock_2026_11_04.

(** * Properties *)

(** ** Writes through handles, on the last slide *)

Lemma string_app_empty_r (s : string) : s +:+ "" = s.
Proof.
  induction s as [|a s IH]; [reflexivity|].
  change (String a (s +:+ "") = String a s). now rewrite IH.
Qed.

Lemma lookup_snoc {A} (l : list A) (x : A) : (l ++ [x]) !! length l = Some x.
Proof. by apply list_lookup_middle. Qed.

Lemma alter_snoc {A} (f : A → A) (l : list A) (x : A) :
  alter f (length l) (l ++ [x]) = l ++ [f x].
Proof. induction l as [|y l IH]; simpl; [reflexivity | f_equal; exact IH]. Qed.

Lemma get_text_frame_last (prs : Presentation) (ss : list Slide) (sl : Slide) (key : shape_key) :
  get_text_frame (length ss, key) (with_slides prs (ss ++ [sl])) = slide_text_frame key sl.
Proof. unfold get_text_frame. simpl. rewrite lookup_snoc. reflexivity. Qed.

Lemma set_text_frame_last (prs : Presentation) ss sl key tf :
  set_text_frame (length ss, key) tf (with_slides prs (ss ++ [sl])) =
  with_slides prs (ss ++ [slide_set_text_frame key tf sl]).
Proof. unfold set_text_frame, with_slides. simpl. rewrite alter_snoc. reflexivity. Qed.

Lemma update_text_frame_last prs ss sl key f tf :
  slide_text_frame key sl = Some tf →
  update_text_frame (length ss, key) f (with_slides prs (ss ++ [sl])) =
    (Return tt, with_slides prs (ss ++ [slide_set_text_frame key (f tf) sl])).
Proof.
  intros Htf. unfold update_text_frame.
  rewrite get_text_frame_last, Htf, set_text_frame_last. reflexivity.
Qed.

Lemma bind_return {S A B} (m : M S A) (k : A → M S B) s a s' :
  m s = (Return a, s') → (m ≫= k) s = k a s'.
Proof. intros H. unfold mbind, M_bind. rewrite H. reflexivity. Qed.

Lemma slide_text_frame_set key tf tf' sl :
  slide_text_frame key sl = Some tf →
  slide_text_frame key (slide_set_text_frame key tf' sl) = Some tf'.
Proof.
  destruct key as [k|k]; simpl; rewrite list_lookup_alter_eq;
    destruct (_ !! k); simpl; intros; simplify_eq; reflexivity.
Qed.

Lemma slide_set_text_frame_twice key tf1 tf2 sl :
  slide_set_text_frame key tf2 (slide_set_text_frame key tf1 sl) =
  slide_set_text_frame key tf2 sl.
Proof.
  destruct key as [k|k]; simpl; f_equal;
    rewrite list_alter_alter_eq; apply list_alter_ext; done.
Qed.

Lemma update_paragraph_last prs ss key sl tf n f :
  slide_text_frame key sl = Some tf →
  update_paragraph ((length ss, key), n) f (with_slides prs (ss ++ [sl])) =
    (Return tt,
     with_slides prs
       (ss ++ [slide_set_text_frame key (with_paragraphs (alter f n) tf) sl])).
Proof. intros. unfold update_paragraph. simpl. by apply update_text_frame_last. Qed.

Lemma add_paragraph_last prs ss key sl tf :
  slide_text_frame key sl = Some tf →
  add_paragraph (length ss, key) (with_slides prs (ss ++ [sl])) =
    (Return ((length ss, key), length (paragraphs tf)),
     with_slides prs
       (ss ++ [slide_set_text_frame key
                 (with_paragraphs (λ ps, ps ++ [empty_paragraph]) tf) sl])).
Proof.
  intros Htf. unfold add_paragraph, get.
  cbv [mbind M_bind mret M_ret].
  erewrite update_text_frame_last by done.
  rewrite get_text_frame_last, Htf. reflexivity.
Qed.

Lemma paragraphs_getitem_last prs ss key sl tf i p :
  slide_text_frame key sl = Some tf →
  paragraphs tf !! i = Some p →
  paragraphs_getitem (length ss, key) i (with_slides prs (ss ++ [sl])) =
    (Return ((length ss, key), i), with_slides prs (ss ++ [sl])).
Proof.
  intros Htf Hp. unfold paragraphs_getitem, get.
  cbv [mbind M_bind mret M_ret].
  rewrite get_text_frame_last, Htf. simpl. rewrite Hp. reflexivity.
Qed.

Ltac frame := repeat (eapply slide_text_frame_set); eassumption.

Lemma slide_set_text_frame_same key tf sl :
  slide_text_frame key sl = Some tf → slide_set_text_frame key tf sl = sl.
Proof.
  destruct sl as [l phs tbs], key as [k|k]; simpl; intros Htf; f_equal.
  - rewrite <- (list_alter_id id phs k) at 2 by done.
    apply list_alter_ext; [|done]. intros [i f] Hk. rewrite Hk in Htf. by simplify_eq/=.
  - rewrite <- (list_alter_id id tbs k) at 2 by done.
    apply list_alter_ext; [|done]. intros [? ? ? ? f] Hk. rewrite Hk in Htf. by simplify_eq/=.
Qed.

Lemma slide_layouts_getitem_run prs i l :
  slide_layouts prs !! i = Some l → slide_layouts_getitem i prs = (Return l, prs).
Proof.
  intros Hl. unfold slide_layouts_getitem, get. cbv [mbind M_bind mret M_ret].
  rewrite Hl. reflexivity.
Qed.

Lemma add_slide_run prs l :
  add_slide l prs =
    (Return (length (slides prs)), with_slides prs (slides prs ++ [new_slide l])).
Proof. reflexivity. Qed.

Lemma shapes_title_last prs ss sl k ph :
  list_find (λ ph, ph_idx ph = 0%nat) (placeholders sl) = Some (k, ph) →
  shapes_title (length ss) (with_slides prs (ss ++ [sl])) =
    (Return (length ss, PH k), with_slides prs (ss ++ [sl])).
Proof.
  intros Hf. unfold shapes_title, get. cbv [mbind M_bind mret M_ret].
  simpl. rewrite lookup_snoc. simpl. rewrite Hf. reflexivity.
Qed.

Lemma placeholders_getitem_last prs ss sl idx k ph :
  list_find (λ ph, ph_idx ph = idx) (placeholders sl) = Some (k, ph) →
  placeholders_getitem (length ss) idx (with_slides prs (ss ++ [sl])) =
    (Return (length ss, PH k), with_slides prs (ss ++ [sl])).
Proof.
  intros Hf. unfold placeholders_getitem, get. cbv [mbind M_bind mret M_ret].
  simpl. rewrite lookup_snoc. simpl. rewrite Hf. reflexivity.
Qed.

(** ** Plain text is stored as given *)

Lemma plain_char_spec (a : ascii) :
  plain_char a = true →
  is_escaped a = false ∧ is_line_break a = false ∧ is_line_feed a = false ∧
  32 ≤ code a ∧ code a ≠ 237 ∧ code a ≠ 239.
Proof.
  unfold plain_char, is_escaped, is_line_break, is_line_feed.
  destruct (Z.leb_spec 32 (code a)), (Z.eqb_spec (code a) 237),
    (Z.eqb_spec (code a) 239); simpl; try discriminate.
  intros _.
  destruct (Z.ltb_spec (code a) 9), (Z.ltb_spec 10 (code a)),
    (Z.ltb_spec (code a) 32), (Z.eqb_spec (code a) 10),
    (Z.eqb_spec (code a) 11); simpl; repeat split; try lia.
Qed.

Lemma plain_text_cons (a : ascii) (s : string) :
  plain_text (String a s) = true → plain_char a = true ∧ plain_text s = true.
Proof. simpl. intros H. by apply andb_prop in H. Qed.

Lemma plain_text_app (s t : string) :
  plain_text s = true → plain_text t = true → plain_text (s +:+ t) = true.
Proof.
  intros Hs Ht. induction s as [|a s IH]; [exact Ht|].
  apply plain_text_cons in Hs as [Ha Hs].
  change (plain_char a && plain_text (s +:+ t) = true).
  rewrite Ha, IH by done. reflexivity.
Qed.

Lemma escape_plain (s : string) : plain_text s = true → _escape s = s.
Proof.
  induction s as [|a s IH]; [reflexivity|]. intros H.
  apply plain_text_cons in H as [Ha Hs].
  apply plain_char_spec in Ha as (Hesc & _). simpl.
  rewrite Hesc, IH by done. reflexivity.
Qed.

Lemma xml_compatible_plain (s : string) :
  plain_text s = true → xml_compatible s = true.
Proof.
  induction s as [|a s IH]; [reflexivity|]. intros H.
  apply plain_text_cons in H as [Ha Hs].
  apply plain_char_spec in Ha as (_ & _ & _ & H32 & H237 & H239).
  cbn [xml_compatible]. rewrite IH by done.
  assert (forbidden_utf8 a s = false) as ->.
  { unfold forbidden_utf8. destruct s as [|b [|c s']]; try reflexivity.
    destruct (Z.eqb_spec (code a) 239); [done|].
    destruct (Z.eqb_spec (code a) 237); [done|]. reflexivity. }
  destruct (Z.leb_spec 32 (code a)); [reflexivity | lia].
Qed.

Lemma split_on_plain (sep : ascii → bool) (s : string) :
  (∀ a, plain_char a = true → sep a = false) →
  plain_text s = true → split_on sep s = [s].
Proof.
  intros Hsep. induction s as [|a s IH]; [reflexivity|]. intros H.
  apply plain_text_cons in H as [Ha Hs].
  simpl. rewrite (Hsep a Ha), IH by done. reflexivity.
Qed.

Lemma split_breaks_plain (s : string) :
  plain_text s = true → split_on is_line_break s = [s].
Proof. apply split_on_plain. intros a Ha. by apply plain_char_spec in Ha as (_ & ? & _). Qed.

Lemma split_lines_plain (s : string) :
  plain_text s = true → split_on is_line_feed s = [s].
Proof. apply split_on_plain. intros a Ha. by apply plain_char_spec in Ha as (_ & _ & ? & _). Qed.

Lemma set_run_text_plain (r : run_ref) (s : string) :
  plain_text s = true →
  set_run_text r s = update_run r (λ x, mk_Run s (run_font x)).
Proof.
  intros Hs. unfold set_run_text.
  rewrite escape_plain, xml_compatible_plain by done. reflexivity.
Qed.

Lemma with_paragraphs_alter_twice (f g h : Paragraph → Paragraph) n tf q :
  paragraphs tf !! n = Some q → f (g q) = h q →
  with_paragraphs (alter f n) (with_paragraphs (alter g n) tf) =
  with_paragraphs (alter h n) tf.
Proof.
  intros Hq Hfg. unfold with_paragraphs. cbn [paragraphs word_wrap]. f_equal.
  rewrite list_alter_alter_eq.
  apply list_alter_ext; [|done]. intros x Hx. rewrite Hq in Hx. by simplify_eq.
Qed.

Lemma add_run_last prs ss key sl tf i q :
  slide_text_frame key sl = Some tf →
  paragraphs tf !! i = Some q →
  add_run ((length ss, key), i) (with_slides prs (ss ++ [sl])) =
    (Return (((length ss, key), i), length (runs q)),
     with_slides prs (ss ++ [slide_set_text_frame key
        (with_paragraphs (alter (with_runs (λ rs, rs ++ [empty_run])) i) tf) sl])).
Proof.
  intros Htf Hq. unfold add_run, get. cbv [mbind M_bind mret M_ret].
  erewrite update_paragraph_last by done.
  simpl. rewrite get_text_frame_last, Htf. simpl. rewrite Hq. reflexivity.
Qed.

Lemma append_text_last prs ss key sl tf n q (s : string) :
  plain_text s = true →
  slide_text_frame key sl = Some tf →
  paragraphs tf !! n = Some q →
  append_text ((length ss, key), n) s (with_slides prs (ss ++ [sl])) =
    (Return tt,
     with_slides prs (ss ++ [slide_set_text_frame key
        (with_paragraphs (alter (with_runs (λ rs, rs ++ plain_runs s)) n) tf) sl])).
Proof.
  intros Hs Htf Hq.
  destruct (decide (s = "")) as [-> | Hne].
  - unfold append_text. cbn [split_on]. unfold enumerate.
    cbn [length seq zip zip_with for_each].
    erewrite bind_return; cycle 1.
    { erewrite bind_return; cycle 1.
      { case_decide; [reflexivity | done]. }
      case_decide; [reflexivity | done]. }
    cbv [mret M_ret].
    rewrite slide_set_text_frame_same; [reflexivity|].
    rewrite Htf. f_equal. destruct tf as [ps ww]. unfold with_paragraphs. simpl. f_equal.
    symmetry. apply list_alter_id. intros [rs l a f]. unfold with_runs. simpl.
    by rewrite app_nil_r.
  - unfold append_text. rewrite split_breaks_plain by done.
    unfold enumerate. cbn [length seq zip zip_with for_each].
    erewrite bind_return; cycle 1.
    { erewrite bind_return; cycle 1.
      { case_decide; [reflexivity | done]. }
      case_decide; [contradiction|]. unfold add_r.
      erewrite bind_return by (by eapply add_run_last).
      case_decide; [contradiction|].
      rewrite set_run_text_plain by done.
      unfold update_run. eapply update_paragraph_last. frame. }
    rewrite slide_set_text_frame_twice.
    erewrite (with_paragraphs_alter_twice _ _
                (with_runs (λ rs, rs ++ plain_runs s)) n tf q); [reflexivity | done |].
    destruct q as [rs l a f]. unfold with_runs. simpl.
    rewrite alter_snoc. destruct s; [done|reflexivity].
Qed.

Lemma set_paragraph_text_last prs ss key sl tf n q (s : string) :
  plain_text s = true →
  slide_text_frame key sl = Some tf →
  paragraphs tf !! n = Some q →
  set_paragraph_text ((length ss, key), n) s (with_slides prs (ss ++ [sl])) =
    (Return tt,
     with_slides prs (ss ++ [slide_set_text_frame key
        (with_paragraphs (alter (with_runs (λ _, plain_runs s)) n) tf) sl])).
Proof.
  intros Hs Htf Hq. unfold set_paragraph_text, clear_paragraph.
  erewrite bind_return by (by eapply update_paragraph_last).
  erewrite append_text_last; [| done | frame |]; cycle 1.
  { simpl. rewrite list_lookup_alter_eq, Hq. reflexivity. }
  rewrite slide_set_text_frame_twice.
  erewrite (with_paragraphs_alter_twice _ _
              (with_runs (λ _, plain_runs s)) n tf q); [reflexivity | done |].
  destruct q. reflexivity.
Qed.

Lemma shape_set_text_last prs ss key sl tf (s : string) :
  plain_text s = true →
  slide_text_frame key sl = Some tf →
  shape_set_text (length ss, key) s (with_slides prs (ss ++ [sl])) =
    (Return tt,
     with_slides prs (ss ++ [slide_set_text_frame key
        (mk_TextFrame [bullet_paragraph s] (word_wrap tf)) sl])).
Proof.
  intros Hs Htf. unfold shape_set_text.
  erewrite bind_return by (by eapply update_text_frame_last).
  rewrite split_lines_plain by done. cbn [for_each].
  erewrite bind_return; cycle 1.
  { erewrite bind_return by (eapply add_paragraph_last; frame).
    eapply append_text_last; [done | frame | reflexivity]. }
  rewrite !slide_set_text_frame_twice. reflexivity.
Qed.

Lemma plain_runs_text (s : string) :
  foldr (λ r acc, run_text r +:+ acc) "" (plain_runs s) = s.
Proof. destruct s; [reflexivity|]. simpl. apply string_app_empty_r. Qed.

Lemma bullet_paragraph_text (b : string) : paragraph_text (bullet_paragraph b) = b.
Proof. apply plain_runs_text. Qed.



Lemma plain_text_frame_text (t : string) : text_frame_text (plain_text_frame t) = t.
Proof. unfold text_frame_text. simpl. apply bullet_paragraph_text. Qed.

Lemma bullets_tail_loop prs ss key (bs : list string) : ∀ sl tf k,
  Forall (λ b, plain_text b = true) bs →
  slide_text_frame key sl = Some tf →
  for_each (zip (seq (S k) (length bs)) bs) (λ '(i, b),
    p ← (if decide (i = 0%nat) then paragraphs_getitem (length ss, key) 0
         else add_paragraph (length ss, key));
    set_paragraph_text p b;;
    set_level p 0) (with_slides prs (ss ++ [sl])) =
  (Return tt, with_slides prs (ss ++ [slide_set_text_frame key
     (with_paragraphs (λ ps, ps ++ (bullet_paragraph <$> bs)) tf) sl])).
Proof.
  induction bs as [|b bs IH]; intros sl tf k Hbs Htf.
  - simpl. rewrite slide_set_text_frame_same; [reflexivity|].
    rewrite Htf. destruct tf. unfold with_paragraphs. simpl. by rewrite app_nil_r.
  - apply Forall_cons in Hbs as [Hb Hbs].
    cbn [length seq zip zip_with for_each].
    erewrite bind_return; cycle 1.
    { erewrite bind_return; cycle 1.
      { case_decide; [lia|]. by apply add_paragraph_last. }
      erewrite bind_return; cycle 1.
      { eapply set_paragraph_text_last; [exact Hb | frame |].
        simpl. apply lookup_snoc. }
      unfold set_level. apply update_paragraph_last. frame. }
    rewrite !slide_set_text_frame_twice.
    erewrite IH; [| exact Hbs | frame].
    rewrite slide_set_text_frame_twice.
    unfold with_paragraphs. simpl. rewrite !alter_snoc, <- app_assoc. reflexivity.
Qed.

Lemma add_title_slide_run (prs : Presentation) (title subtitle : string) :
  slide_layouts prs = default_slide_layouts →
  plain_text title = true →
  plain_text subtitle = true →
  _add_title_slide title subtitle prs =
    (Return tt,
     with_slides prs (slides prs ++
       [mk_Slide (mk_SlideLayout "Title Slide" [0; 1]%nat)
          [mk_Placeholder 0 (plain_text_frame title);
           mk_Placeholder 1 (plain_text_frame subtitle)] []])).
Proof.
  intros HL Ht Hs. unfold _add_title_slide.
  erewrite bind_return; cycle 1.
  { apply slide_layouts_getitem_run. rewrite HL. reflexivity. }
  erewrite bind_return by apply add_slide_run.
  erewrite bind_return; cycle 1.
  { eapply shapes_title_last. reflexivity. }
  erewrite bind_return; cycle 1.
  { eapply shape_set_text_last; [exact Ht | reflexivity]. }
  erewrite bind_return; cycle 1.
  { eapply placeholders_getitem_last. reflexivity. }
  erewrite shape_set_text_last; [| exact Hs | reflexivity].
  reflexivity.
Qed.

Lemma add_bullets_slide_run (prs : Presentation) (title : string) (bullets : list string) :
  slide_layouts prs = default_slide_layouts →
  plain_text title = true →
  Forall (λ b, plain_text b = true) bullets →
  _add_bullets_slide title bullets prs =
    (Return tt,
     with_slides prs (slides prs ++
       [mk_Slide (mk_SlideLayout "Title and Content" [0; 1]%nat)
          [mk_Placeholder 0 (plain_text_frame title);
           mk_Placeholder 1
             (mk_TextFrame
                match bullets with
                | [] => [empty_paragraph]
                | _ => bullet_paragraph <$> bullets
                end None)] []])).
Proof.
  intros HL Ht Hbs. unfold _add_bullets_slide.
  erewrite bind_return; cycle 1.
  { apply slide_layouts_getitem_run. rewrite HL. reflexivity. }
  erewrite bind_return by apply add_slide_run.
  erewrite bind_return; cycle 1.
  { eapply shapes_title_last. reflexivity. }
  erewrite bind_return; cycle 1.
  { eapply shape_set_text_last; [exact Ht | reflexivity]. }
  erewrite bind_return; cycle 1.
  { eapply placeholders_getitem_last. reflexivity. }
  erewrite bind_return by reflexivity.
  erewrite bind_return; cycle 1.
  { unfold tf_clear. eapply update_text_frame_last. reflexivity. }
  simpl.
  destruct bullets as [|b bs]; [reflexivity|].
  apply Forall_cons in Hbs as [Hb Hbs].
  unfold enumerate. cbn [length seq zip zip_with for_each].
  erewrite bind_return; cycle 1.
  { erewrite bind_return; cycle 1.
    { case_decide; [|done]. eapply paragraphs_getitem_last; reflexivity. }
    erewrite bind_return; cycle 1.
    { eapply set_paragraph_text_last; [exact Hb | reflexivity | reflexivity]. }
    unfold set_level. eapply update_paragraph_last. reflexivity. }
  simpl.
  erewrite bullets_tail_loop; [| exact Hbs | reflexivity].
  reflexivity.
Qed.

(** ** The bulleted-slide builder *)




(** ** The two-column slide builder *)

Lemma add_textbox_last prs ss sl l t w h :
  add_textbox (length ss) l t w h (with_slides prs (ss ++ [sl])) =
    (Return (length ss, TB (length (textboxes sl))),
     with_slides prs (ss ++ [mk_Slide (slide_layout sl) (placeholders sl)
                               (textboxes sl ++ [mk_TextBox l t w h new_textbox_frame])])).
Proof.
  unfold add_textbox, get, modify. cbv [mbind M_bind mret M_ret].
  simpl. rewrite lookup_snoc. unfold with_slides. simpl. rewrite alter_snoc. reflexivity.
Qed.

Lemma item_text_plain (it : string) :
  plain_text it = true → plain_text ("• " +:+ it) = true.
Proof. intros Hit. by apply plain_text_app. Qed.

Lemma items_loop prs ss key (items : list string) : ∀ sl tf,
  Forall (λ it, plain_text it = true) items →
  slide_text_frame key sl = Some tf →
  for_each items (λ it,
    pi ← add_paragraph (length ss, key);
    set_paragraph_text pi ("• " +:+ it);;
    set_level pi 0;;
    set_paragraph_font_size pi (Pt 16)) (with_slides prs (ss ++ [sl])) =
  (Return tt, with_slides prs (ss ++ [slide_set_text_frame key
     (with_paragraphs (λ ps, ps ++ (item_paragraph <$> items)) tf) sl])).
Proof.
  induction items as [|it items IH]; intros sl tf Hitems Htf.
  - simpl. rewrite slide_set_text_frame_same; [reflexivity|].
    rewrite Htf. destruct tf. unfold with_paragraphs. simpl. by rewrite app_nil_r.
  - apply Forall_cons in Hitems as [Hit Hitems].
    cbn [for_each].
    erewrite bind_return; cycle 1.
    { erewrite bind_return by (by apply add_paragraph_last).
      erewrite bind_return; cycle 1.
      { eapply set_paragraph_text_last; [by apply item_text_plain | frame |].
        simpl. apply lookup_snoc. }
      erewrite bind_return; cycle 1.
      { unfold set_level. apply update_paragraph_last. frame. }
      unfold set_paragraph_font_size. apply update_paragraph_last. frame. }
    rewrite !slide_set_text_frame_twice.
    erewrite IH; [| exact Hitems | frame].
    rewrite slide_set_text_frame_twice.
    unfold with_paragraphs. simpl. rewrite !alter_snoc, <- app_assoc. reflexivity.
Qed.

Lemma column_run prs ss key sl (title_text : string) (items : list string) :
  plain_text title_text = true →
  Forall (λ it, plain_text it = true) items →
  slide_text_frame key sl = Some new_textbox_frame →
  (tf ← text_frame (length ss, key);
   set_word_wrap tf true;;
   p ← paragraphs_getitem tf 0;
   run ← add_run p;
   set_run_text run title_text;;
   set_run_bold run true;;
   set_run_size run (Pt 20);;
   set_alignment p PP_ALIGN_LEFT;;
   for_each items (λ it,
     pi ← add_paragraph tf;
     set_paragraph_text pi ("• " +:+ it);;
     set_level pi 0;;
     set_paragraph_font_size pi (Pt 16))) (with_slides prs (ss ++ [sl])) =
  (Return tt, with_slides prs (ss ++ [slide_set_text_frame key
     (mk_TextFrame (heading_paragraph title_text :: (item_paragraph <$> items)) (Some true))
     sl])).
Proof.
  intros Ht Hitems Htf.
  erewrite bind_return by reflexivity.
  erewrite bind_return; cycle 1.
  { unfold set_word_wrap. eapply update_text_frame_last. exact Htf. }
  erewrite bind_return; cycle 1.
  { eapply paragraphs_getitem_last; [frame | reflexivity]. }
  erewrite bind_return; cycle 1.
  { eapply add_run_last; [frame | reflexivity]. }
  erewrite bind_return; cycle 1.
  { rewrite set_run_text_plain by exact Ht.
    unfold update_run. eapply update_paragraph_last. frame. }
  erewrite bind_return; cycle 1.
  { unfold set_run_bold, update_run. eapply update_paragraph_last. frame. }
  erewrite bind_return; cycle 1.
  { unfold set_run_size, update_run. eapply update_paragraph_last. frame. }
  erewrite bind_return; cycle 1.
  { unfold set_alignment. eapply update_paragraph_last. frame. }
  erewrite items_loop; [| exact Hitems | frame].
  rewrite !slide_set_text_frame_twice. reflexivity.
Qed.

Lemma add_two_column_slide_run (prs : Presentation)
    (title left_title : string) (left_items : list string)
    (right_title : string) (right_items : list string) :
  slide_layouts prs = default_slide_layouts →
  plain_text title = true →
  plain_text left_title = true →
  Forall (λ it, plain_text it = true) left_items →
  plain_text right_title = true →
  Forall (λ it, plain_text it = true) right_items →
  _add_two_column_slide title left_title left_items right_title right_items prs =
    (Return tt,
     with_slides prs (slides prs ++
       [mk_Slide (mk_SlideLayout "Title Only" [0%nat])
          [mk_Placeholder 0 (plain_text_frame title)]
          [mk_TextBox (Inches (7 # 10)) (Inches (16 # 10)) (Inches (43 # 10)) (Inches 5)
             (mk_TextFrame (heading_paragraph left_title :: (item_paragraph <$> left_items))
                (Some true));
           mk_TextBox (Inches (52 # 10)) (Inches (16 # 10)) (Inches (43 # 10)) (Inches 5)
             (mk_TextFrame (heading_paragraph right_title :: (item_paragraph <$> right_items))
                (Some true))]])).
Proof.
  intros HL Ht Hlt Hli Hrt Hri. unfold _add_two_column_slide.
  erewrite bind_return; cycle 1.
  { apply slide_layouts_getitem_run. rewrite HL. reflexivity. }
  erewrite bind_return by apply add_slide_run.
  erewrite bind_return; cycle 1.
  { eapply shapes_title_last. reflexivity. }
  erewrite bind_return; cycle 1.
  { eapply shape_set_text_last; [exact Ht | reflexivity]. }
  erewrite bind_return by apply add_textbox_last.
  erewrite bind_return by apply add_textbox_last.
  cbn [for_each].
  erewrite bind_return by (apply column_run; [exact Hlt | exact Hli | reflexivity]).
  erewrite bind_return by (apply column_run; [exact Hrt | exact Hri | reflexivity]).
  reflexivity.
Qed.




(** ** The assembler *)

Lemma pretty_N_char_plain (x : N) : plain_char (pretty_N_char x) = true.
Proof. unfold pretty_N_char. by repeat case_match. Qed.

Lemma pretty_N_go_plain (x : N) (s : string) :
  plain_text s = true → plain_text (pretty_N_go x s) = true.
Proof.
  revert s. induction (N.lt_wf_0 x) as [x _ IH]; intros s Hs.
  destruct (decide (x = 0)%N) as [-> | Hx]; [by rewrite pretty_N_go_0|].
  rewrite pretty_N_go_step by lia.
  apply IH; [apply N.div_lt; lia|].
  simpl. by rewrite pretty_N_char_plain.
Qed.

Lemma pretty_nat_plain (n : nat) : plain_text (pretty n) = true.
Proof.
  unfold pretty, pretty_nat, pretty, pretty_N.
  case_decide; [reflexivity|]. by apply pretty_N_go_plain.
Qed.

(** What [strftime] prints is plain text. *)
Lemma strftime_plain (c : Clock) (d : datetime) :
  plain_text (strftime_d_B_Y c d) = true.
Proof.
  unfold strftime_d_B_Y, strftime_d.
  repeat apply plain_text_app;
    try reflexivity; try apply pretty_nat_plain; try apply month_name_plain.
  case_decide; [apply plain_text_app; [reflexivity|]|]; apply pretty_nat_plain.
Qed.

Lemma content_deck_run :
  build_content_slides Presentation_new = (Return tt, content_deck).
Proof. vm_compute. reflexivity. Qed.

Lemma content_deck_layouts : slide_layouts content_deck = default_slide_layouts.
Proof. vm_compute. reflexivity. Qed.

(** The closing slide, as [build_closing_slide] leaves it. *)
Lemma build_slides_run (c : Clock) :
  build_slides c Presentation_new =
    (Return tt,
     with_slides content_deck (slides content_deck ++
       [mk_Slide (mk_SlideLayout "Title Only" [0%nat])
          [mk_Placeholder 0 (plain_text_frame "Terima kasih")]
          [mk_TextBox (Inches (12 # 10)) (Inches (22 # 10)) (Inches 8) (Inches 3)
             (mk_TextFrame
                [mk_Paragraph
                   [mk_Run ("Disusun otomatis pada " +:+ strftime_d_B_Y c (now c))
                      unset_font]
                   0 None (mk_Font None (Some (Pt 18)))]
                (Some false))]])).
Proof.
  unfold build_slides.
  erewrite bind_return by apply content_deck_run.
  unfold build_closing_slide.
  erewrite bind_return; cycle 1.
  { apply slide_layouts_getitem_run. rewrite content_deck_layouts. reflexivity. }
  erewrite bind_return by apply add_slide_run.
  erewrite bind_return; cycle 1.
  { eapply shapes_title_last. reflexivity. }
  erewrite bind_return; cycle 1.
  { eapply shape_set_text_last; reflexivity. }
  erewrite bind_return by apply add_textbox_last.
  erewrite bind_return by reflexivity.
  erewrite bind_return; cycle 1.
  { eapply paragraphs_getitem_last; reflexivity. }
  erewrite bind_return; cycle 1.
  { eapply set_paragraph_text_last; [| reflexivity | reflexivity].
    apply plain_text_app; [reflexivity | apply strftime_plain]. }
  unfold set_paragraph_font_size.
  erewrite update_paragraph_last by reflexivity.
  reflexivity.
Qed.

Lemma built_document_eq (c : Clock) :
  built_document c =
    with_slides content_deck (slides content_deck ++
       [mk_Slide (mk_SlideLayout "Title Only" [0%nat])
          [mk_Placeholder 0 (plain_text_frame "Terima kasih")]
          [mk_TextBox (Inches (12 # 10)) (Inches (22 # 10)) (Inches 8) (Inches 3)
             (mk_TextFrame
                [mk_Paragraph
                   [mk_Run ("Disusun otomatis pada " +:+ strftime_d_B_Y c (now c))
                      unset_font]
                   0 None (mk_Font None (Some (Pt 18)))]
                (Some false))]]).
Proof. unfold built_document. rewrite build_slides_run. reflexivity. Qed.

Lemma build_slides_returns (c : Clock) :
  (build_slides c Presentation_new).1 = Return tt.
Proof. rewrite build_slides_run. reflexivity. Qed.

Lemma then_get_run {S A} (m : M S unit) (f : S → A) (s : S) :
  (m s).1 = Return tt →
  ((m;; x ← get; mret (f x)) s).1 = Return (f (m s).2).
Proof.
  unfold mbind, M_bind. destruct (m s) as [[[]|e] s']; simpl.
  - reflexivity.
  - discriminate.
Qed.

Lemma build_ipb_ui_presentation_eq `{PackageWriter} (c : Clock) :
  build_ipb_ui_presentation c =
    Return (BytesIO_seek 0 (save (built_document c) BytesIO_new)).
Proof.
  unfold build_ipb_ui_presentation, build_steps, built_document.
  apply (then_get_run (build_slides c)
           (λ prs, BytesIO_seek 0 (save prs BytesIO_new)) Presentation_new).
  apply build_slides_returns.
Qed.

(** C1, as stated, fails: the assembled document has 9 slides, not 11. *)
Lemma build_ipb_ui_presentation_not_11_slides :
  length (slides (built_document clock_2026_11_04)) ≠ 11%nat.
Proof. vm_compute. discriminate. Qed.

(** C1, amended: the assembler returns, and its document holds exactly 9
    slides in this order: the title slide; the overview, admissions and
    faculty bulleted slides of IPB; the overview and admissions bulleted
    slides of UI; the two two-column faculty slides of UI (title-only
    layout, two text boxes each); the closing slide (title-only layout, one
    text box). *)
Theorem build_ipb_ui_presentation_slides `{PackageWriter} (c : Clock) :
  (∃ bio, build_ipb_ui_presentation c = Return bio) ∧
  length (slides (built_document c)) = 9%nat ∧
  slide_summary <$> slides (built_document c) =
    [ ("Title Slide", "Profil IPB University & Universitas Indonesia", 0%nat);
      ("Title and Content", "IPB University – Ringkasan", 0%nat);
      ("Title and Content", "IPB – Jalur Masuk", 0%nat);
      ("Title and Content", "IPB – Fakultas & Sekolah", 0%nat);
      ("Title and Content", "Universitas Indonesia – Ringkasan", 0%nat);
      ("Title and Content", "UI – Jalur Masuk", 0%nat);
      ("Title Only", "UI – Fakultas (Kesehatan & Saintek)", 2%nat);
      ("Title Only", "UI – Fakultas (Soshum & Program Lain)", 2%nat);
      ("Title Only", "Terima kasih", 1%nat) ].
Proof.
  split; [|split].
  - rewrite build_ipb_ui_presentation_eq. eexists. reflexivity.
  - rewrite built_document_eq. cbn [with_slides slides].
    rewrite length_app. vm_compute. reflexivity.
  - rewrite built_document_eq. cbn [with_slides slides].
    rewrite fmap_app. vm_compute. reflexivity.
Qed.

Lemma BytesIO_write_new (data : list Byte.byte) :
  BytesIO_write data BytesIO_new = mk_BytesIO data (length data).
Proof.
  unfold BytesIO_write, BytesIO_new. simpl.
  rewrite drop_nil, app_nil_r. reflexivity.
Qed.

(** C8: provided the package writer starts its output with the ZIP
    signature, the buffer that [build_ipb_ui_presentation] returns holds the
    serialized document, is positioned at offset 0, is non-empty, and
    starts with that signature. *)
Theorem build_ipb_ui_presentation_buffer `{PackageWriter} (c : Clock) :
  (∀ prs, zip_signature `prefix_of` save_bytes prs) →
  ∃ bio,
    build_ipb_ui_presentation c = Return bio ∧
    getvalue bio = save_bytes (built_document c) ∧
    tell bio = 0%nat ∧
    getvalue bio ≠ [] ∧
    take 4 (getvalue bio) = zip_signature.
Proof.
  intros Hsig. rewrite build_ipb_ui_presentation_eq.
  eexists. split; [reflexivity|].
  unfold save. rewrite BytesIO_write_new. cbn [BytesIO_seek getvalue tell].
  destruct (Hsig (built_document c)) as [rest ->].
  repeat split.
  - discriminate.
Qed.

Lemma build_ipb_ui_presentation_buffer_witness :
  (∀ prs, zip_signature `prefix_of` @save_bytes signature_only_writer prs) ∧
  ∃ bio,
    @build_ipb_ui_presentation signature_only_writer clock_2026_11_04 = Return bio ∧
    getvalue bio = @save_bytes signature_only_writer (built_document clock_2026_11_04) ∧
    tell bio = 0%nat ∧
    getvalue bio ≠ [] ∧
    take 4 (getvalue bio) = zip_signature.
Proof.
  split.
  - intros prs. exists []. reflexivity.
  - apply (@build_ipb_ui_presentation_buffer signature_only_writer clock_2026_11_04).
    intros prs. exists []. reflexivity.
Defined.

(** ** The document route *)

(** C5: when the assembly step raises [e], the route answers 500 with the
    JSON object [{"error": str(e)}]; when it returns a stream, the route
    answers with that stream and the header
    [Content-Disposition: attachment; filename=Profil_IPB_dan_UI.pptx]. *)
Theorem generate_ppt_ipb_ui_responses :
  (∀ e : exn,
     ∃ r, generate_ppt_ipb_ui_calling (Raise e) = Return r ∧
          status_code r = 500%nat ∧
          body r = JsonBody {["error" := VStr (str e)]}) ∧
  (∀ stream : BytesIO,
     ∃ r, generate_ppt_ipb_ui_calling (Return stream) = Return r ∧
          status_code r = 200%nat ∧
          body r = StreamBody stream ∧
          headers r = [("Content-Disposition", "attachment; filename=Profil_IPB_dan_UI.pptx")]).
Proof.
  split.
  - intros e. eexists. split; [reflexivity|]. split; reflexivity.
  - intros stream. eexists. split; [reflexivity|]. repeat split.
Qed.

(** The route as deployed: the assembler returns, so the client is sent
    the whole package. *)
Lemma generate_ppt_ipb_ui_streams `{PackageWriter} (w : World) :
  ∃ r, generate_ppt_ipb_ui w = Return r ∧
       status_code r = 200%nat ∧
       sent_bytes r = Some (save_bytes (built_document (clock w))).
Proof.
  unfold generate_ppt_ipb_ui. rewrite build_ipb_ui_presentation_eq.
  eexists. split; [reflexivity|]. split; [reflexivity|].
  unfold sent_bytes, save. rewrite BytesIO_write_new. reflexivity.
Qed.

(** ** The greeting routes *)

(** C9: a GET request to [/] or to [/api/hello] is answered with the
    fixed JSON object of its route, whatever its query string and headers. *)
Theorem greeting_routes_fixed `{PackageWriter} (w : World)
    (query request_headers : list (string * string)) :
  body (app w (mk_Request "GET" "/" query request_headers)) =
    JsonBody {["message" := VStr "Hello from FastAPI Backend!"]} ∧
  body (app w (mk_Request "GET" "/api/hello" query request_headers)) =
    JsonBody {["message" := VStr "Hello from the backend API!"]}.
Proof.
  split; unfold app, CORSMiddleware;
    (destruct (header "origin" _) as [origin|]; [|reflexivity]);
    (case_decide as Hpre; [destruct Hpre as [Hm _]; discriminate Hm | reflexivity]).
Qed.

(** ** The diagnostics route *)

(** The handler always reaches its last two statements: whatever the
    database module does, the probe ends with a status string under
    ["database"], and the two environment fields are written after it. *)
Lemma test_database_steps_run (w : World) (response : gmap string pyval) :
  ∃ probed : gmap string pyval,
    probed !! "database" = Some (VStr (database_status w)) ∧
    test_database_steps w response =
      (Return tt,
       <["database_name" := VStr (set_or_not w "DATABASE_NAME")]>
         (<["database_url" := VStr (set_or_not w "DATABASE_URL")]> probed)).
Proof.
  unfold test_database_steps, database_status, import_db, set_or_not.
  destruct (database_module w) as [e | [db|]].
  - destruct (is_ImportError e) eqn:He;
      cbv [mbind M_bind try_except raise mret M_ret setitem modify call];
      rewrite He; (eexists; split; [|reflexivity]); apply lookup_insert_eq.
  - cbv [mbind M_bind try_except raise mret M_ret setitem modify call].
    destruct (list_collection_names db) as [cs | e];
      (eexists; split; [|reflexivity]); apply lookup_insert_eq.
  - cbv [mbind M_bind try_except raise mret M_ret setitem modify call].
    eexists; split; [|reflexivity]. apply lookup_insert_eq.
Qed.

(** C2: whatever the database module does (missing, failing to load,
    [db] left [None], listing the collections raising, or all going
    well), [test_database] returns its report, the route answers 200 with
    it, and the report carries the matching status string under
    ["database"]. *)
Theorem test_database_never_fails (w : World) :
  ∃ response : gmap string pyval,
    test_database w = Return response ∧
    respond_dict (test_database w) = JSONResponse 200 response ∧
    response !! "database" = Some (VStr (database_status w)).
Proof.
  unfold test_database.
  destruct (test_database_steps_run w initial_response) as (probed & Hdb & ->).
  eexists. split; [reflexivity|]. split; [reflexivity|].
  rewrite !lookup_insert_ne by discriminate. exact Hdb.
Qed.

Lemma set_not_set_distinct : "✅ Set" ≠ "❌ Not Set".
Proof. discriminate. Qed.

(** C3: in the report, ["database_url"] is ["✅ Set"] exactly when
    [DATABASE_URL] is in the environment with a non-empty value, and
    ["❌ Not Set"] otherwise; the same holds of ["database_name"] and
    [DATABASE_NAME].  The database module plays no part. *)
Theorem test_database_env_fields (w : World) :
  ∃ response : gmap string pyval,
    test_database w = Return response ∧
    (response !! "database_url" = Some (VStr "✅ Set") ↔
       ∃ v, environ w !! "DATABASE_URL" = Some v ∧ v ≠ "") ∧
    (response !! "database_url" = Some (VStr "❌ Not Set") ↔
       ¬ ∃ v, environ w !! "DATABASE_URL" = Some v ∧ v ≠ "") ∧
    (response !! "database_name" = Some (VStr "✅ Set") ↔
       ∃ v, environ w !! "DATABASE_NAME" = Some v ∧ v ≠ "") ∧
    (response !! "database_name" = Some (VStr "❌ Not Set") ↔
       ¬ ∃ v, environ w !! "DATABASE_NAME" = Some v ∧ v ≠ "").
Proof.
  unfold test_database.
  destruct (test_database_steps_run w initial_response) as (probed & _ & ->).
  eexists. split; [reflexivity|].
  rewrite lookup_insert_ne by discriminate.
  rewrite !lookup_insert_eq.
  unfold set_or_not, os_getenv, truthy.
  assert (Hcase : ∀ o : option string,
    (Some (VStr (if match o with Some s => bool_decide (s ≠ "") | None => false end
                 then "✅ Set" else "❌ Not Set")) = Some (VStr "✅ Set")
       ↔ ∃ v, o = Some v ∧ v ≠ "") ∧
    (Some (VStr (if match o with Some s => bool_decide (s ≠ "") | None => false end
                 then "✅ Set" else "❌ Not Set")) = Some (VStr "❌ Not Set")
       ↔ ¬ ∃ v, o = Some v ∧ v ≠ "")).
  { intros [s|]; [case_bool_decide as Hs|]; (split; split).
    - intros _. exists s. auto.
    - reflexivity.
    - discriminate.
    - intros Hn. exfalso. apply Hn. exists s. auto.
    - discriminate.
    - intros (v & [= <-] & Hv). contradiction.
    - intros _ (v & [= <-] & Hv). contradiction.
    - reflexivity.
    - discriminate.
    - intros (v & Hv & _). discriminate.
    - intros _ (v & Hv & _). discriminate.
    - reflexivity. }
  destruct (Hcase (environ w !! "DATABASE_URL")) as [? ?].
  destruct (Hcase (environ w !! "DATABASE_NAME")) as [? ?].
  repeat split; tauto.
Qed.

(** ** The closing slide *)

(** C7, as stated, fails: on the closing slide the text box is not
    centered, neither by its place on the slide (1.2 in from the left and
    8 in wide on a slide 10 in wide) nor by the alignment of its text,
    which is left unset. *)
Lemma closing_slide_not_centered :
  ¬ closing_slide_as_specified clock_2026_11_04 (built_document clock_2026_11_04).
Proof.
  intros (s & b & p & Hlast & _ & Hb & Hp & Hcentered & _).
  vm_compute in Hlast. injection Hlast as <-.
  cbn [textboxes] in Hb. injection Hb as <-.
  cbn [box_text_frame paragraphs] in Hp. injection Hp as <-.
  destruct Hcentered as [Hc | Hc].
  - vm_compute in Hc. discriminate Hc.
  - discriminate Hc.
Qed.

(** C7, amended: the closing slide is the last one; it uses the
    title-only layout, is titled "Terima kasih", and holds a single text
    box, 8 in by 3 in, placed 1.2 in from the left and 2.2 in from the top
    (not centered, its alignment unset), whose single paragraph, at 18
    points, reads "Disusun otomatis pada " followed by the generation date
    as two-digit day, full month name of the locale, and year. *)
Theorem closing_slide_contents (c : Clock) :
  ∃ s b p,
    last (slides (built_document c)) = Some s ∧
    layout_name (slide_layout s) = "Title Only" ∧
    slide_title s = "Terima kasih" ∧
    textboxes s = [b] ∧
    (box_left b, box_top b, box_width b, box_height b) =
      (Inches (12 # 10), Inches (22 # 10), Inches 8, Inches 3) ∧
    ¬ horizontally_centered (built_document c) b ∧
    paragraphs (box_text_frame b) = [p] ∧
    alignment p = None ∧
    size (font p) = Some (Pt 18) ∧
    paragraph_text p =
      "Disusun otomatis pada " +:+
        strftime_d (now c) +:+ " " +:+ month_name c (month (now c)) +:+ " " +:+
        pretty (year (now c)).
Proof.
  set (p := mk_Paragraph
              [mk_Run ("Disusun otomatis pada " +:+ strftime_d_B_Y c (now c)) unset_font]
              0 None (mk_Font None (Some (Pt 18)))).
  set (b := mk_TextBox (Inches (12 # 10)) (Inches (22 # 10)) (Inches 8) (Inches 3)
              (mk_TextFrame [p] (Some false))).
  set (s := mk_Slide (mk_SlideLayout "Title Only" [0%nat])
              [mk_Placeholder 0
                 (mk_TextFrame [mk_Paragraph [mk_Run "Terima kasih" unset_font] 0 None unset_font]
                    None)]
              [b]).
  exists s, b, p. rewrite built_document_eq.
  split; [apply last_snoc|].
  split; [reflexivity|].
  split; [vm_compute; reflexivity|].
  repeat split.
  - unfold horizontally_centered. vm_compute. discriminate.
  - unfold paragraph_text. cbn [p runs foldr run_text].
    rewrite string_app_empty_r. reflexivity.
Qed.

(** The clock reaches the document through the formatted date only: two
    runs that print the same date fill the same document. *)
Lemma built_document_same_date (c1 c2 : Clock) :
  strftime_d_B_Y c1 (now c1) = strftime_d_B_Y c2 (now c2) →
  built_document c1 = built_document c2.
Proof.
  intros Hdate. rewrite !built_document_eq, Hdate. reflexivity.
Qed.

(** The date the closing slide shows on 4 November 2026 in the C locale. *)
Example closing_slide_date_2026_11_04 :
  strftime_d_B_Y clock_2026_11_04 (now clock_2026_11_04) = "04 November 2026".
Proof. vm_compute. reflexivity. Qed.

(** * Further properties of the builders, the handler and the route *)

(** ** What each builder appends *)

Lemma bind_raise {S A B} (m : M S A) (k : A → M S B) s e s' :
  m s = (Raise e, s') → (m ≫= k) s = (Raise e, s').
Proof. intros H. unfold mbind, M_bind. rewrite H. reflexivity. Qed.

Lemma slide_layouts_getitem_out_of_range prs i :
  slide_layouts prs !! i = None →
  slide_layouts_getitem i prs =
    (Raise (mk_exn IndexError "slide layout index out of range"), prs).
Proof.
  intros Hl. unfold slide_layouts_getitem, get. cbv [mbind M_bind mret M_ret].
  rewrite Hl. reflexivity.
Qed.

(** X1: on a document made from the built-in template, for a title and
    subtitle of plain text, [_add_title_slide]
    returns and appends exactly one slide after the existing ones: it has
    the "Title Slide" layout, its title reads [title], its placeholder of
    [idx] 1 reads [subtitle], and it has two placeholders and no text box. *)
Theorem add_title_slide_contents (prs : Presentation) (title subtitle : string) :
  slide_layouts prs = default_slide_layouts →
  plain_text title = true →
  plain_text subtitle = true →
  ∃ s tf,
    _add_title_slide title subtitle prs =
      (Return tt, with_slides prs (slides prs ++ [s])) ∧
    layout_name (slide_layout s) = "Title Slide" ∧
    slide_title s = title ∧
    content_placeholder s = Some tf ∧
    text_frame_text tf = subtitle ∧
    length (placeholders s) = 2%nat ∧
    textboxes s = [].
Proof.
  intros HL Ht Hs. rewrite add_title_slide_run by done.
  eexists _, _. split; [reflexivity|]. split; [reflexivity|].
  split; [apply plain_text_frame_text|]. split; [reflexivity|].
  split; [apply plain_text_frame_text|]. split; reflexivity.
Qed.

Lemma add_title_slide_contents_witness :
  slide_layouts Presentation_new = default_slide_layouts ∧
  plain_text "Judul" = true ∧
  plain_text "Anak judul" = true ∧
  ∃ s tf,
    _add_title_slide "Judul" "Anak judul" Presentation_new =
      (Return tt, with_slides Presentation_new (slides Presentation_new ++ [s])) ∧
    layout_name (slide_layout s) = "Title Slide" ∧
    slide_title s = "Judul" ∧
    content_placeholder s = Some tf ∧
    text_frame_text tf = "Anak judul" ∧
    length (placeholders s) = 2%nat ∧
    textboxes s = [].
Proof.
  split; [reflexivity|]. split; [reflexivity|]. split; [reflexivity|].
  apply (add_title_slide_contents Presentation_new "Judul" "Anak judul"); reflexivity.
Defined.

(** X2: for a title and bullets of plain text, the slide that
    [_add_bullets_slide] appends has the "Title and Content" layout, its
    title reads the [title] given, whatever the bullets, and it has two
    placeholders and no text box. *)
Theorem add_bullets_slide_frame (prs : Presentation) (title : string) (bullets : list string) :
  slide_layouts prs = default_slide_layouts →
  plain_text title = true →
  Forall (λ b, plain_text b = true) bullets →
  ∃ s,
    _add_bullets_slide title bullets prs =
      (Return tt, with_slides prs (slides prs ++ [s])) ∧
    layout_name (slide_layout s) = "Title and Content" ∧
    slide_title s = title ∧
    length (placeholders s) = 2%nat ∧
    textboxes s = [].
Proof.
  intros HL Ht Hbs. rewrite add_bullets_slide_run by done.
  eexists. split; [reflexivity|]. split; [reflexivity|].
  split; [apply plain_text_frame_text|]. split; reflexivity.
Qed.

Lemma add_bullets_slide_frame_witness :
  slide_layouts Presentation_new = default_slide_layouts ∧
  plain_text "Judul" = true ∧
  Forall (λ b, plain_text b = true) ["satu"; "dua"] ∧
  ∃ s,
    _add_bullets_slide "Judul" ["satu"; "dua"] Presentation_new =
      (Return tt, with_slides Presentation_new (slides Presentation_new ++ [s])) ∧
    layout_name (slide_layout s) = "Title and Content" ∧
    slide_title s = "Judul" ∧
    length (placeholders s) = 2%nat ∧
    textboxes s = [].
Proof.
  split; [reflexivity|]. split; [reflexivity|]. split; [repeat constructor|].
  apply (add_bullets_slide_frame Presentation_new "Judul" ["satu"; "dua"]);
    [reflexivity | reflexivity | repeat constructor].
Defined.

(** X3: for titles and items of plain text, the slide that
    [_add_two_column_slide] appends has the "Title
    Only" layout and the [title] given, and exactly two text boxes, both
    with word wrap on.  Whatever the items, the boxes are 4.3 in by 5 in,
    both 1.6 in from the top, the left one 0.7 in and the right one 5.2 in
    from the left edge, so the left box ends before the right one starts. *)
Theorem add_two_column_slide_frame (prs : Presentation)
    (title left_title : string) (left_items : list string)
    (right_title : string) (right_items : list string) :
  slide_layouts prs = default_slide_layouts →
  plain_text title = true →
  plain_text left_title = true →
  Forall (λ it, plain_text it = true) left_items →
  plain_text right_title = true →
  Forall (λ it, plain_text it = true) right_items →
  ∃ s left_box right_box,
    _add_two_column_slide title left_title left_items right_title right_items prs =
      (Return tt, with_slides prs (slides prs ++ [s])) ∧
    layout_name (slide_layout s) = "Title Only" ∧
    slide_title s = title ∧
    textboxes s = [left_box; right_box] ∧
    word_wrap (box_text_frame left_box) = Some true ∧
    word_wrap (box_text_frame right_box) = Some true ∧
    (box_left left_box, box_top left_box, box_width left_box, box_height left_box) =
      (Inches (7 # 10), Inches (16 # 10), Inches (43 # 10), Inches 5) ∧
    (box_left right_box, box_top right_box, box_width right_box, box_height right_box) =
      (Inches (52 # 10), Inches (16 # 10), Inches (43 # 10), Inches 5) ∧
    box_left left_box + box_width left_box < box_left right_box.
Proof.
  intros HL Ht Hlt Hli Hrt Hri. rewrite add_two_column_slide_run by done.
  eexists _, _, _. split; [reflexivity|]. split; [reflexivity|].
  split; [apply plain_text_frame_text|]. repeat split.
Qed.

Lemma add_two_column_slide_frame_witness :
  slide_layouts Presentation_new = default_slide_layouts ∧
  plain_text "Judul" = true ∧
  plain_text "Kiri" = true ∧
  Forall (λ it, plain_text it = true) ["a"] ∧
  plain_text "Kanan" = true ∧
  Forall (λ it, plain_text it = true) ["b"; "c"] ∧
  ∃ s left_box right_box,
    _add_two_column_slide "Judul" "Kiri" ["a"] "Kanan" ["b"; "c"] Presentation_new =
      (Return tt, with_slides Presentation_new (slides Presentation_new ++ [s])) ∧
    layout_name (slide_layout s) = "Title Only" ∧
    slide_title s = "Judul" ∧
    textboxes s = [left_box; right_box] ∧
    word_wrap (box_text_frame left_box) = Some true ∧
    word_wrap (box_text_frame right_box) = Some true ∧
    (box_left left_box, box_top left_box, box_width left_box, box_height left_box) =
      (Inches (7 # 10), Inches (16 # 10), Inches (43 # 10), Inches 5) ∧
    (box_left right_box, box_top right_box, box_width right_box, box_height right_box) =
      (Inches (52 # 10), Inches (16 # 10), Inches (43 # 10), Inches 5) ∧
    box_left left_box + box_width left_box < box_left right_box.
Proof.
  split; [reflexivity|]. split; [reflexivity|]. split; [reflexivity|].
  split; [repeat constructor|]. split; [reflexivity|]. split; [repeat constructor|].
  apply (add_two_column_slide_frame Presentation_new "Judul" "Kiri" ["a"] "Kanan" ["b"; "c"]);
    [reflexivity | reflexivity | reflexivity | repeat constructor
    | reflexivity | repeat constructor].
Defined.

(** Text that XML cannot hold makes a builder raise: here a title that
    is the one character U+FFFF. *)
Lemma add_title_slide_rejects_noncharacter :
  ∃ e, exn_cls e = ValueError ∧
       (_add_title_slide
          (String (ascii_of_nat 239) (String (ascii_of_nat 191)
             (String (ascii_of_nat 191) EmptyString))) "" Presentation_new).1 = Raise e.
Proof. eexists. split; [|vm_compute; reflexivity]. reflexivity. Qed.

(** X4: for arguments of plain text, the slide a builder appends depends
    on the builder's arguments only: for given arguments there is one slide
    that the builder appends to every document made from the built-in
    template, whatever slides the document already holds, and those slides
    are left as they were. *)
Theorem builders_ignore_existing_slides :
  (∀ title subtitle,
     plain_text title = true → plain_text subtitle = true →
     ∃ s, ∀ prs,
       slide_layouts prs = default_slide_layouts →
       _add_title_slide title subtitle prs =
         (Return tt, with_slides prs (slides prs ++ [s]))) ∧
  (∀ title bullets,
     plain_text title = true → Forall (λ b, plain_text b = true) bullets →
     ∃ s, ∀ prs,
       slide_layouts prs = default_slide_layouts →
       _add_bullets_slide title bullets prs =
         (Return tt, with_slides prs (slides prs ++ [s]))) ∧
  (∀ title left_title left_items right_title right_items,
     plain_text title = true →
     plain_text left_title = true → Forall (λ it, plain_text it = true) left_items →
     plain_text right_title = true → Forall (λ it, plain_text it = true) right_items →
     ∃ s, ∀ prs,
       slide_layouts prs = default_slide_layouts →
       _add_two_column_slide title left_title left_items right_title right_items prs =
         (Return tt, with_slides prs (slides prs ++ [s]))).
Proof.
  split; [|split]; intros.
  - eexists. intros prs HL. by apply add_title_slide_run.
  - eexists. intros prs HL. by apply add_bullets_slide_run.
  - eexists. intros prs HL. by apply add_two_column_slide_run.
Qed.

(** X5: for a title and bullets of plain text, calling
    [_add_bullets_slide] twice with the same arguments appends two slides,
    both equal to the one a single call appends. *)
Theorem add_bullets_slide_twice (prs : Presentation) (title : string) (bullets : list string) :
  slide_layouts prs = default_slide_layouts →
  plain_text title = true →
  Forall (λ b, plain_text b = true) bullets →
  ∃ s,
    _add_bullets_slide title bullets prs =
      (Return tt, with_slides prs (slides prs ++ [s])) ∧
    (_add_bullets_slide title bullets;; _add_bullets_slide title bullets) prs =
      (Return tt, with_slides prs (slides prs ++ [s; s])).
Proof.
  intros HL Ht Hbs. eexists. split; [by apply add_bullets_slide_run|].
  erewrite bind_return by (by apply add_bullets_slide_run).
  rewrite add_bullets_slide_run by done.
  unfold with_slides. simpl. rewrite <- app_assoc. reflexivity.
Qed.

Lemma add_bullets_slide_twice_witness :
  slide_layouts Presentation_new = default_slide_layouts ∧
  plain_text "Judul" = true ∧
  Forall (λ b, plain_text b = true) ["satu"] ∧
  ∃ s,
    _add_bullets_slide "Judul" ["satu"] Presentation_new =
      (Return tt, with_slides Presentation_new (slides Presentation_new ++ [s])) ∧
    (_add_bullets_slide "Judul" ["satu"];; _add_bullets_slide "Judul" ["satu"])
      Presentation_new =
      (Return tt, with_slides Presentation_new (slides Presentation_new ++ [s; s])).
Proof.
  split; [reflexivity|]. split; [reflexivity|]. split; [repeat constructor|].
  apply (add_bullets_slide_twice Presentation_new "Judul" ["satu"]);
    [reflexivity | reflexivity | repeat constructor].
Defined.

(** X6: when the document's template has no layout at the index a
    builder asks for (0 for the title slide, 1 for the bulleted slide, 5
    for the two-column slide), the builder raises [IndexError] before it
    adds anything: the document is left unchanged. *)
Theorem builders_missing_layout (prs : Presentation) :
  (∀ title subtitle,
     slide_layouts prs !! 0%nat = None →
     ∃ e, exn_cls e = IndexError ∧
          _add_title_slide title subtitle prs = (Raise e, prs)) ∧
  (∀ title bullets,
     slide_layouts prs !! 1%nat = None →
     ∃ e, exn_cls e = IndexError ∧
          _add_bullets_slide title bullets prs = (Raise e, prs)) ∧
  (∀ title left_title left_items right_title right_items,
     slide_layouts prs !! 5%nat = None →
     ∃ e, exn_cls e = IndexError ∧
          _add_two_column_slide title left_title left_items right_title right_items prs =
            (Raise e, prs)).
Proof.
  split; [|split]; intros; eexists; (split; [|
    apply bind_raise, slide_layouts_getitem_out_of_range; assumption]); reflexivity.
Qed.

Lemma builders_missing_layout_witness :
  slide_layouts empty_template !! 1%nat = None ∧
  ∃ e, exn_cls e = IndexError ∧
       _add_bullets_slide "Judul" ["satu"] empty_template = (Raise e, empty_template).
Proof.
  split.
  - reflexivity.
  - apply (builders_missing_layout empty_template). reflexivity.
Defined.

(** X7: a failure after [add_slide] is not undone.  When layout 0 of the
    template has a title placeholder but none of [idx] 1, for a title of
    plain text [_add_title_slide] raises [KeyError] at
    [slide.placeholders[1]], and the document keeps the slide it had
    already added, with its title set. *)
Theorem add_title_slide_without_subtitle_placeholder
    (prs : Presentation) (l : SlideLayout) (title subtitle : string) :
  slide_layouts prs !! 0%nat = Some l →
  layout_placeholders l = [0%nat] →
  plain_text title = true →
  ∃ e s,
    exn_cls e = KeyError ∧
    _add_title_slide title subtitle prs =
      (Raise e, with_slides prs (slides prs ++ [s])) ∧
    slide_layout s = l ∧
    slide_title s = title.
Proof.
  intros Hl Hph Ht. unfold _add_title_slide.
  erewrite bind_return by (apply slide_layouts_getitem_run, Hl).
  erewrite bind_return by apply add_slide_run.
  assert (Hnew : new_slide l = mk_Slide l [mk_Placeholder 0 new_text_frame] []).
  { unfold new_slide. rewrite Hph. reflexivity. }
  rewrite Hnew.
  erewrite bind_return; cycle 1.
  { eapply shapes_title_last. reflexivity. }
  erewrite bind_return; cycle 1.
  { eapply shape_set_text_last; [exact Ht | reflexivity]. }
  simpl.
  eexists _, _. split; [|split; [|split]]; cycle 1.
  - apply bind_raise. unfold placeholders_getitem, get.
    cbv [mbind M_bind mret M_ret]. simpl. rewrite lookup_snoc. reflexivity.
  - reflexivity.
  - apply plain_text_frame_text.
  - reflexivity.
Qed.

Lemma add_title_slide_without_subtitle_placeholder_witness :
  slide_layouts title_only_template !! 0%nat = Some (mk_SlideLayout "Title Only" [0%nat]) ∧
  layout_placeholders (mk_SlideLayout "Title Only" [0%nat]) = [0%nat] ∧
  plain_text "Judul" = true ∧
  ∃ e s,
    exn_cls e = KeyError ∧
    _add_title_slide "Judul" "Anak judul" title_only_template =
      (Raise e, with_slides title_only_template (slides title_only_template ++ [s])) ∧
    slide_layout s = mk_SlideLayout "Title Only" [0%nat] ∧
    slide_title s = "Judul".
Proof.
  split; [reflexivity|]. split; [reflexivity|]. split; [reflexivity|].
  apply (add_title_slide_without_subtitle_placeholder title_only_template
           (mk_SlideLayout "Title Only" [0%nat]) "Judul" "Anak judul"); reflexivity.
Defined.

(** ** The diagnostics report *)

(** Runs the diagnostics handler on every behaviour of the database
    module, leaving one goal per path with the response spelled out. *)
Ltac diagnostics_paths w :=
  unfold test_database, test_database_steps, import_db;
  destruct (database_module w) as [e | [db|]];
  [ destruct (is_ImportError e) eqn:Himport;
    cbv [mbind M_bind try_except raise mret M_ret setitem modify call];
    rewrite ?Himport
  | cbv [mbind M_bind try_except raise mret M_ret setitem modify call];
    destruct (list_collection_names db) as [names | e]
  | cbv [mbind M_bind try_except raise mret M_ret setitem modify call] ].

(** X8: on every path the report has exactly the six keys of the dict
    literal, no more and no fewer, and ["backend"] stays ["✅ Running"]. *)
Theorem test_database_report_keys (w : World) :
  ∃ response : gmap string pyval,
    test_database w = Return response ∧
    dom response =
      ({["backend"; "database"; "database_url"; "database_name";
         "connection_status"; "collections"]} : gset string) ∧
    response !! "backend" = Some (VStr "✅ Running").
Proof.
  diagnostics_paths w;
    (eexists; split; [reflexivity|]; split;
     [ unfold initial_response; rewrite !dom_insert_L, dom_empty_L; set_solver
     | unfold initial_response; by simplify_map_eq ]).
Qed.

(** X9: ["connection_status"] is ["Connected"] exactly when the import
    binds [db] to a handle, also when listing the collections then raises;
    on every other path it stays ["Not Connected"]. *)
Theorem test_database_connection_status (w : World) :
  ∃ response : gmap string pyval,
    test_database w = Return response ∧
    response !! "connection_status" =
      Some (VStr match database_module w with
                 | Imported (Some _) => "Connected"
                 | _ => "Not Connected"
                 end).
Proof.
  diagnostics_paths w;
    (eexists; split; [reflexivity|]; unfold initial_response; by simplify_map_eq).
Qed.

(** X10: ["collections"] holds at most 10 names: the first 10 that
    [list_collection_names] returns when it returns, and the empty list on
    every other path, also when the listing raises. *)
Theorem test_database_collections (w : World) :
  ∃ (response : gmap string pyval) (shown : list string),
    test_database w = Return response ∧
    response !! "collections" = Some (VList shown) ∧
    (length shown ≤ 10)%nat ∧
    shown =
      match database_module w with
      | Imported (Some db) =>
          match list_collection_names db with
          | Return names => take 10 names
          | Raise _ => []
          end
      | _ => []
      end.
Proof.
  diagnostics_paths w;
    (eexists _, _; split; [reflexivity|]; split;
     [unfold initial_response; by simplify_map_eq|]; split; [|reflexivity]);
    rewrite ?length_take; cbn [length]; lia.
Qed.

Lemma str_len_prefix (s : string) : ∀ n, (str_len (str_prefix n s) ≤ n)%nat.
Proof.
  induction s as [|a s IH]; intros n; simpl; [lia|].
  destruct (is_continuation a) eqn:Ha; simpl; rewrite ?Ha.
  - apply IH.
  - destruct n as [|n]; simpl; [lia|]. rewrite Ha. specialize (IH n). lia.
Qed.

Lemma str_prefix_is_prefix (s : string) : ∀ n, ∃ rest, s = str_prefix n s +:+ rest.
Proof.
  induction s as [|a s IH]; intros n; simpl.
  - exists "". reflexivity.
  - destruct (is_continuation a).
    + destruct (IH n) as [rest Hrest]. exists rest.
      change (String a s = String a (str_prefix n s +:+ rest)). by rewrite <- Hrest.
    + destruct n as [|n].
      * exists (String a s). reflexivity.
      * destruct (IH n) as [rest Hrest]. exists rest.
        change (String a s = String a (str_prefix n s +:+ rest)). by rewrite <- Hrest.
Qed.

Lemma str_prefix_short (s : string) : ∀ n,
  (str_len s ≤ n)%nat → str_prefix n s = s.
Proof.
  induction s as [|a s IH]; intros n; simpl; [reflexivity|].
  destruct (is_continuation a); intros Hlen.
  - f_equal. by apply IH.
  - destruct n as [|n]; [lia|]. f_equal. apply IH. lia.
Qed.

(** A cut never splits a character: 30 accented letters, 60 bytes long,
    are 30 characters and are shown whole. *)
Example str_prefix_accented :
  let s := "éééééééééééééééééééééééééééééé" in
  str_len s = 30%nat ∧ str_prefix 50 s = s.
Proof. split; vm_compute; reflexivity. Qed.

(** X11: when the import raises something other than [ImportError], or
    the listing raises, the report shows the exception's message cut to
    its first 50 characters after a fixed lead: a message of at most 50
    characters is shown whole, a longer one loses its tail.  Characters are
    counted as Python counts them, not bytes. *)
Theorem test_database_error_text (w : World) (e : exn) :
  (database_module w = ImportRaises e ∧ is_ImportError e = false) ∨
  (∃ db, database_module w = Imported (Some db) ∧ list_collection_names db = Raise e) →
  ∃ (response : gmap string pyval) (lead shown : string),
    test_database w = Return response ∧
    response !! "database" = Some (VStr (lead +:+ shown)) ∧
    (lead = "❌ Error: " ∨ lead = "⚠️  Connected but Error: ") ∧
    shown = str_prefix 50 (str e) ∧
    (str_len shown ≤ 50)%nat ∧
    (∃ rest, str e = shown +:+ rest) ∧
    ((str_len (str e) ≤ 50)%nat → shown = str e).
Proof.
  intros Hcase.
  assert (Hfacts : ∀ shown, shown = str_prefix 50 (str e) →
    shown = str_prefix 50 (str e) ∧
    (str_len shown ≤ 50)%nat ∧
    (∃ rest, str e = shown +:+ rest) ∧
    ((str_len (str e) ≤ 50)%nat → shown = str e)).
  { intros shown ->. split; [reflexivity|]. split; [apply str_len_prefix|].
    split; [apply str_prefix_is_prefix|]. apply str_prefix_short. }
  unfold test_database, test_database_steps, import_db.
  destruct Hcase as [[Hmod Himport] | (db & Hmod & Hlist)]; rewrite Hmod.
  - cbv [mbind M_bind try_except raise mret M_ret setitem modify call].
    rewrite Himport.
    eexists _, "❌ Error: ", _. split; [reflexivity|].
    split; [by simplify_map_eq|]. split; [by left|]. by apply Hfacts.
  - cbv [mbind M_bind try_except raise mret M_ret setitem modify call].
    rewrite Hlist.
    eexists _, "⚠️  Connected but Error: ", _. split; [reflexivity|].
    split; [by simplify_map_eq|]. split; [by right|]. by apply Hfacts.
Qed.

Lemma test_database_error_text_witness :
  ((database_module world_listing_fails = ImportRaises listing_error ∧
    is_ImportError listing_error = false) ∨
   (∃ db, database_module world_listing_fails = Imported (Some db) ∧
          list_collection_names db = Raise listing_error)) ∧
  ∃ (response : gmap string pyval) (lead shown : string),
    test_database world_listing_fails = Return response ∧
    response !! "database" = Some (VStr (lead +:+ shown)) ∧
    (lead = "❌ Error: " ∨ lead = "⚠️  Connected but Error: ") ∧
    shown = str_prefix 50 (str listing_error) ∧
    (str_len shown ≤ 50)%nat ∧
    (∃ rest, str listing_error = shown +:+ rest) ∧
    ((str_len (str listing_error) ≤ 50)%nat → shown = str listing_error).
Proof.
  split.
  - right. eexists. split; reflexivity.
  - apply (test_database_error_text world_listing_fails listing_error).
    right. eexists. split; reflexivity.
Defined.

(** X12: the report says ["✅ Connected & Working"] exactly when the
    import binds [db] to a handle and listing the collections returns. *)
Theorem test_database_working_iff (w : World) :
  ∃ response : gmap string pyval,
    test_database w = Return response ∧
    (response !! "database" = Some (VStr "✅ Connected & Working") ↔
     ∃ db names,
       database_module w = Imported (Some db) ∧
       list_collection_names db = Return names).
Proof.
  unfold test_database, test_database_steps, import_db.
  destruct (database_module w) as [e | [db|]].
  - destruct (is_ImportError e) eqn:Himport;
      cbv [mbind M_bind try_except raise mret M_ret setitem modify call];
      rewrite ?Himport; (eexists; split; [reflexivity|]);
      rewrite !lookup_insert_ne, lookup_insert_eq by discriminate;
      (split; [intros [= H]; cbv in H; discriminate H | intros (? & ? & [=] & _)]).
  - cbv [mbind M_bind try_except raise mret M_ret setitem modify call].
    destruct (list_collection_names db) as [names | e] eqn:Hlist;
      (eexists; split; [reflexivity|]);
      rewrite !lookup_insert_ne, lookup_insert_eq by discriminate.
    + split; [intros _; eauto | reflexivity].
    + split; [intros [= H]; cbv in H; discriminate H|].
      intros (db' & names & [= <-] & Hret). congruence.
  - cbv [mbind M_bind try_except raise mret M_ret setitem modify call].
    eexists; split; [reflexivity|].
    rewrite !lookup_insert_ne, lookup_insert_eq by discriminate.
    split; [intros [= H] | intros (? & ? & [=] & _)].
Qed.

(** ** The document and the route that serves it *)

Lemma built_document_closing_run (c : Clock) :
  closing_run_text (built_document c) =
    Some ("Disusun otomatis pada " +:+ strftime_d_B_Y c (now c)).
Proof. rewrite built_document_eq. unfold closing_run_text. cbn [with_slides slides].
  rewrite last_snoc. reflexivity. Qed.

(** X13: the assembled document depends on the clock through the
    formatted date and nothing else: two runs fill equal documents exactly
    when they print the same date. *)
Theorem built_document_date_iff (c1 c2 : Clock) :
  built_document c1 = built_document c2 ↔
  strftime_d_B_Y c1 (now c1) = strftime_d_B_Y c2 (now c2).
Proof.
  split.
  - intros Hdoc.
    pose proof (built_document_closing_run c1) as H1.
    pose proof (built_document_closing_run c2) as H2.
    rewrite Hdoc, H2 in H1. injection H1 as H1.
    symmetry. exact (String.app_inj _ _ _ H1).
  - intros Hdate. rewrite !built_document_eq, Hdate. reflexivity.
Qed.

Lemma generate_ppt_ipb_ui_eq `{PackageWriter} (w : World) :
  generate_ppt_ipb_ui w =
    Return (StreamingResponse
              (mk_BytesIO (save_bytes (built_document (clock w))) 0)
              "application/vnd.openxmlformats-officedocument.presentationml.presentation"
              [("Content-Disposition", "attachment; filename=Profil_IPB_dan_UI.pptx")]).
Proof.
  unfold generate_ppt_ipb_ui. rewrite build_ipb_ui_presentation_eq.
  unfold save. rewrite BytesIO_write_new. reflexivity.
Qed.

Lemma router_document `{PackageWriter} (w : World)
    (query request_headers : list (string * string)) :
  router w (mk_Request "GET" "/api/ppt/ipb-ui" query request_headers) =
    StreamingResponse
      (mk_BytesIO (save_bytes (built_document (clock w))) 0)
      "application/vnd.openxmlformats-officedocument.presentationml.presentation"
      [("Content-Disposition", "attachment; filename=Profil_IPB_dan_UI.pptx")].
Proof.
  unfold router. cbn [path method].
  repeat (case_decide; [discriminate|]).
  do 2 (case_decide; [|done]).
  rewrite generate_ppt_ipb_ui_eq. reflexivity.
Qed.

(** X14: a GET to [/api/ppt/ipb-ui], whatever its query string and
    headers, is answered 200 with the presentation media type and the
    attachment header, and the client is sent the whole serialized
    document, from its first byte. *)
Theorem document_route_sends_whole_package `{PackageWriter} (w : World)
    (query request_headers : list (string * string)) :
  let r := app w (mk_Request "GET" "/api/ppt/ipb-ui" query request_headers) in
  status_code r = 200%nat ∧
  sent_bytes r = Some (save_bytes (built_document (clock w))) ∧
  media_type r =
    "application/vnd.openxmlformats-officedocument.presentationml.presentation" ∧
  ("Content-Disposition", "attachment; filename=Profil_IPB_dan_UI.pptx") ∈ headers r.
Proof.
  unfold app, CORSMiddleware. rewrite router_document.
  destruct (header "origin" _) as [origin|].
  - case_decide as Hpre; [destruct Hpre as [Hm _]; discriminate Hm|].
    cbn [status_code media_type headers body StreamingResponse sent_bytes getvalue tell drop].
    repeat split. set_solver.
  - cbn [status_code media_type headers body StreamingResponse sent_bytes getvalue tell drop].
    repeat split. set_solver.
Qed.
